(** * bulk-mail-sender: the batch dispatch engine of [app.py]

    A shallow embedding of the sending task [send_emails_task], of the
    counter and configuration storage it rests on, and of the two routes
    [get_status] and [start_sending], followed by the properties of the
    design document that concern them.

    Conventions of the embedding.
    - Python values read from JSON are [pyval]; a [dict] is a [gmap] with
      string keys.  Floating point numbers are left out, and with them a
      recipient column that mixes texts with other values, whose stripped
      list holds [nan].
    - A text is the string of the bytes of its UTF-8 encoding ([string] of
      the standard library); where Python looks at characters (white space
      in [strip], the length of a text) the bytes are read as UTF-8.
    - A stored file is text that [json.load] rejects ([Garbage]), bytes on
      which [json.load] raises another exception ([Unreadable]), or the
      value that [json.load] returns for it ([Doc]).
    - An exception is given by its class, as far as the program tells
      classes apart: [UnicodeDecodeError] and [UnicodeEncodeError] are
      [ValueError]s.  The text of an exception is not modelled: an event
      that prints an exception carries the exception.
    - The time stamp that [log_message] puts in front of a message is
      dropped; an entry of [LOGS] is the message, as an [event].
    - A file that exists can be opened; writing [email_counter.json] and
      [config.json] and appending to [LOGS] are taken to succeed.
    - A run of the task is observed alone: the steps of two sending threads
      are not interleaved.
    - Everything the task asks of its surroundings (pandas, smtplib, the file
      system) is answered by a [World]. *)

From Stdlib Require Import ZArith String Ascii List Bool Lia.
From stdpp Require Import base gmap strings list.

Set Warnings "-register-all".

Open Scope string_scope.
Open Scope list_scope.
Open Scope Z_scope.

(** ** Python values and exceptions *)

Inductive pyval :=
| PNone
| PBool (b : bool)
| PInt (z : Z)
| PStr (s : string)
| PList (l : list pyval)
| PDict (d : gmap string pyval).

(** The classes of the exceptions that occur; [OtherError] stands for the
    errors of pandas, smtplib and the operating system, by name. *)
Inductive exn :=
| KeyError
| IndexError
| ValueError
| TypeError
| AttributeError
| OtherError (name : string).

Inductive result (A : Type) :=
| Ok (a : A)
| Err (e : exn).
Arguments Ok {A} a.
Arguments Err {A} e.

(** [bool(v)], as [all], [not] and [if] use it. *)
Definition truthy (v : pyval) : bool :=
  match v with
  | PNone => false
  | PBool b => b
  | PInt z => negb (z =? 0)
  | PStr s => negb (String.eqb s "")
  | PList l => match l with [] => false | _ => true end
  | PDict d => negb (bool_decide (d = ∅))
  end.

(** [d.get(k, default)] on a dict. *)
Definition dict_get (d : gmap string pyval) (k : string) (default : pyval) : pyval :=
  match d !! k with
  | Some v => v
  | None => default
  end.

(** [v.get(k, default)] on any value: only a dict has the method. *)
Definition py_get (v : pyval) (k : string) (default : pyval) : result pyval :=
  match v with
  | PDict d => Ok (dict_get d k default)
  | _ => Err AttributeError
  end.

(** An integer operand of [+], [>=] and [range]: [bool] is a subclass of [int]. *)
Definition as_int (v : pyval) : option Z :=
  match v with
  | PInt z => Some z
  | PBool b => Some (if b then 1 else 0)
  | _ => None
  end.

(** [l[i]] with Python's negative indices. *)
Definition py_index {A : Type} (l : list A) (i : Z) : result A :=
  let n := Z.of_nat (length l) in
  let j := if i <? 0 then i + n else i in
  if (0 <=? j) && (j <? n) then
    match l !! Z.to_nat j with
    | Some x => Ok x
    | None => Err IndexError
    end
  else Err IndexError.

(** ** Strings *)

Definition is_upper (c : ascii) : bool :=
  let n := nat_of_ascii c in (65 <=? n)%nat && (n <=? 90)%nat.

Definition is_lower (c : ascii) : bool :=
  let n := nat_of_ascii c in (97 <=? n)%nat && (n <=? 122)%nat.

Definition is_alpha (c : ascii) : bool := is_upper c || is_lower c.

Definition is_digit (c : ascii) : bool :=
  let n := nat_of_ascii c in (48 <=? n)%nat && (n <=? 57)%nat.

Definition is_ascii (c : ascii) : bool := (nat_of_ascii c <? 128)%nat.

(** The characters for which [str.isspace] holds, by the bytes of their
    UTF-8 encoding.  One byte: U+0009 to U+000D, U+001C to U+0020. *)
Definition is_space (c : ascii) : bool :=
  let n := nat_of_ascii c in
  ((9 <=? n)%nat && (n <=? 13)%nat) || ((28 <=? n)%nat && (n <=? 32)%nat).

(** Two bytes: U+0085 and U+00A0. *)
Definition is_space2 (c1 c2 : ascii) : bool :=
  let n1 := nat_of_ascii c1 in
  let n2 := nat_of_ascii c2 in
  (n1 =? 194)%nat && ((n2 =? 133)%nat || (n2 =? 160)%nat).

(** Three bytes: U+1680, U+2000 to U+200A, U+2028, U+2029, U+202F, U+205F
    and U+3000. *)
Definition is_space3 (c1 c2 c3 : ascii) : bool :=
  let n1 := nat_of_ascii c1 in
  let n2 := nat_of_ascii c2 in
  let n3 := nat_of_ascii c3 in
  ((n1 =? 225)%nat && (n2 =? 154)%nat && (n3 =? 128)%nat)
  || ((n1 =? 226)%nat && (n2 =? 128)%nat
      && (((128 <=? n3)%nat && (n3 <=? 138)%nat)
          || (n3 =? 168)%nat || (n3 =? 169)%nat || (n3 =? 175)%nat))
  || ((n1 =? 226)%nat && (n2 =? 129)%nat && (n3 =? 159)%nat)
  || ((n1 =? 227)%nat && (n2 =? 128)%nat && (n3 =? 128)%nat).

Definition to_lower (c : ascii) : ascii :=
  if is_upper c then ascii_of_nat (nat_of_ascii c + 32) else c.

Definition to_upper (c : ascii) : ascii :=
  if is_lower c then ascii_of_nat (nat_of_ascii c - 32) else c.

Fixpoint str_map (f : ascii -> ascii) (s : string) : string :=
  match s with
  | EmptyString => EmptyString
  | String c r => String (f c) (str_map f r)
  end.

Fixpoint str_forall (p : ascii -> bool) (s : string) : bool :=
  match s with
  | EmptyString => true
  | String c r => p c && str_forall p r
  end.

(** [s.lower()] on the ASCII letters of [s].  Python also lowers the
    letters outside ASCII; of these only U+0130 and U+212A give an ASCII
    letter (["i"] followed by U+0307, and ["k"]), so that ["email"] is part
    of the one text exactly when it is part of the other. *)
Definition lower (s : string) : string := str_map to_lower s.

(** [sub in s] *)
Fixpoint contains (sub s : string) : bool :=
  String.prefix sub s ||
  match s with
  | EmptyString => false
  | String _ r => contains sub r
  end.

(** The text without the white space at its front; with [backwards] the
    bytes of each character come in reverse order, as they do in the
    reversed text. *)
Fixpoint lstrip (backwards : bool) (s : string) : string :=
  match s with
  | EmptyString => EmptyString
  | String c1 r1 =>
      if is_space c1 then lstrip backwards r1
      else
        match r1 with
        | EmptyString => s
        | String c2 r2 =>
            if (if backwards then is_space2 c2 c1 else is_space2 c1 c2)
            then lstrip backwards r2
            else
              match r2 with
              | EmptyString => s
              | String c3 r3 =>
                  if (if backwards then is_space3 c3 c2 c1 else is_space3 c1 c2 c3)
                  then lstrip backwards r3
                  else s
              end
        end
  end.

(** [s.strip()] *)
Definition strip (s : string) : string :=
  String.rev (lstrip true (String.rev (lstrip false s))).

(** [s.split(sep)[0]] for a separator of one character. *)
Fixpoint before_sep (sep : ascii) (s : string) : string :=
  match s with
  | EmptyString => EmptyString
  | String c r => if Ascii.eqb c sep then EmptyString else String c (before_sep sep r)
  end.

(** [s.split()] for a text of ASCII characters: the maximal runs of
    characters that are not white space. *)
Fixpoint split_go (cur : option string) (s : string) : list string :=
  match s with
  | EmptyString => match cur with Some w => [String.rev w] | None => [] end
  | String c r =>
      if is_space c then
        match cur with
        | Some w => String.rev w :: split_go None r
        | None => split_go None r
        end
      else split_go (Some (String c (default EmptyString cur))) r
  end.

Definition py_split (s : string) : list string := split_go None s.

(** [s.capitalize()] *)
Definition capitalize (s : string) : string :=
  match s with
  | EmptyString => EmptyString
  | String c r => String (to_upper c) (lower r)
  end.

(** [sep.join(parts)] *)
Fixpoint join (sep : string) (parts : list string) : string :=
  match parts with
  | [] => EmptyString
  | [p] => p
  | p :: ps => p +:+ sep +:+ join sep ps
  end.

(** [os.path.join(a, p)] on POSIX paths, for a non-empty [a] without a
    trailing separator; a [p] that is not text is a [TypeError]. *)
Definition path_join (a : string) (p : pyval) : result string :=
  match p with
  | PStr s =>
      match s with
      | String "/" _ => Ok s
      | _ => Ok (a +:+ "/" +:+ s)
      end
  | _ => Err TypeError
  end.

(** ** Storage: [email_counter.json] and [config.json] *)

Inductive stored :=
| Garbage                 (* text for which [json.load] raises [JSONDecodeError] *)
| Unreadable (e : exn)    (* bytes for which [json.load] raises [e], which is not a
                             [JSONDecodeError]: a [ValueError] ([UnicodeDecodeError])
                             when they are not text in the encoding of the locale *)
| Doc (v : pyval).        (* text that [json.load] decodes to [v] *)

Definition UPLOAD_FOLDER : string := "uploads".

(** [load_config]: the decoded document, [{}] when the file is absent or
    [json.load] raises [JSONDecodeError]; any other exception of
    [json.load] leaves the function. *)
Definition load_config (config_file : option stored) : result pyval :=
  match config_file with
  | Some (Doc v) => Ok v
  | Some Garbage => Ok (PDict ∅)
  | Some (Unreadable e) => Err e
  | None => Ok (PDict ∅)
  end.

(** [load_counter]: [data.get('counter', 0)] of the decoded document, [0]
    when the file is absent or [json.load] raises [JSONDecodeError]; any
    other exception of [json.load] leaves the function. *)
Definition load_counter (counter_file : option stored) : result pyval :=
  match counter_file with
  | Some (Doc data) => py_get data "counter" (PInt 0)
  | Some Garbage => Ok (PInt 0)
  | Some (Unreadable e) => Err e
  | None => Ok (PInt 0)
  end.

(** The content of the counter file after [save_counter(counter)]: the file
    is opened with mode ['w'] and holds [{'counter': counter}] alone. *)
Definition counter_doc (counter : Z) : option stored :=
  Some (Doc (PDict {[ "counter" := PInt counter ]})).

(** ** Templates *)

Definition get_email_templates : gmap string (string * string) :=
  {[ "default" :=
       ("Hi, I am Akash Sakhare",
        "{greeting},

I hope you're having a productive and meaningful day.

My name is Akash Sakhare, and I’m currently working as a Junior Software Engineer in Bangalore. I’m reaching out to explore any potential openings for AI/ML or Software Engineer roles at your organization. I’ve been following the impactful work your team delivers, and I’d be excited to contribute my skills and passion to such a forward-thinking environment.

I’ve attached my resume for your review. If there are any current or upcoming opportunities where I could contribute, I’d love to connect and discuss further.

Warm regards,
Akash Sakhare
");
     "concise" :=
       ("AI/Data Science Opportunity",
        "{greeting},

I hope this email finds you well. I'm Akash Sakhare, a Junior Software Engineer with experience in AI development, and I'm interested in exploring opportunities with your team.

My key achievements include building ML pipelines, developing conversational AI, and fine-tuning LLMs. I'm passionate about solving real-world problems through AI.

I've attached my resume for your consideration. I'd appreciate the opportunity to discuss how my skills align with your current needs.

Best regards,
Akash Sakhare
") ]}.

(** [extract_name]: the words of letters in front of the first ['@'],
    capitalised; ["there"] when there is none.  Each byte that is not a
    letter becomes a blank, so a character outside ASCII becomes several
    blanks where [re.sub] gives one, which [split] does not tell apart.
    The [try] of the source guards against an address that is not text,
    which the type excludes. *)
Definition extract_name (email : string) : string :=
  let local_part := before_sep "@" email in
  let name := strip (str_map (fun c => if is_alpha c then c else " "%char) local_part) in
  let name := join " " (capitalize <$> py_split name) in
  if String.eqb name "" then "there" else name.

(** ** The surroundings of a run *)

(** A column of a data frame as [pd.read_csv] builds it.  A column of
    dtype [object] holds texts, and [None] where a value is missing; so
    does the column of a file without rows.  Any other column holds
    numbers or booleans: its dtype is numeric or boolean, or it is a column
    of booleans with missing values.  A column without any value in a file
    with rows is of dtype [float64], whichever way it is written here. *)
Inductive column :=
| Texts (cells : list (option string))
| Numbers.

(** A data frame: the columns in order, each with its header. *)
Definition frame : Type := list (string * column).

(** [data.dropna(subset=[email_column])[email_column].str.strip().tolist()]:
    the rows without a value in the column are dropped; the accessor
    [.str] raises [AttributeError] unless the values left are texts (or
    none is left in a column of dtype [object]). *)
Definition stripped_texts (c : column) : result (list string) :=
  match c with
  | Texts cells =>
      match cells, omap id cells with
      | _ :: _, [] => Err AttributeError
      | _, texts => Ok (strip <$> texts)
      end
  | Numbers => Err AttributeError
  end.

(** The message handed to [server.sendmail]. *)
Record message := {
  msg_from : string;
  msg_to : string;
  msg_subject : pyval;
  msg_body : string;
  msg_attachment : option string   (* path of the attached file *)
}.

Record World := {
  (* [int(s)] on text; [None] is [ValueError] *)
  int_of_str : string -> option Z;
  (* [template.format(greeting=g)] for a template with a replacement field
     that has a conversion, a format specification, an attribute, an index
     or a character outside ASCII *)
  format_extended : string -> string -> result string;
  (* [pd.read_csv(path, encoding="utf-8")] *)
  read_csv : string -> result frame;
  (* [smtplib.SMTP(..)], [starttls()] and [login(user, password)]: [None]
     when all three succeed *)
  smtp_connect : pyval -> pyval -> option exn;
  (* [os.path.exists(path)] in the iteration of index [i] *)
  path_exists : Z -> string -> bool;
  (* reading and attaching the file in iteration [i]: [None] on success *)
  read_attachment : Z -> string -> option exn;
  (* [msg.as_string()] and [server.sendmail(..)] in iteration [i]: [None]
     on success *)
  sendmail : Z -> message -> option exn;
  (* [server.quit()] *)
  smtp_quit : option exn
}.

(** [int(v)] *)
Definition py_int (w : World) (v : pyval) : result Z :=
  match v with
  | PInt z => Ok z
  | PBool b => Ok (if b then 1 else 0)
  | PStr s => match int_of_str w s with Some z => Ok z | None => Err ValueError end
  | _ => Err TypeError
  end.

(** ** [str.format] with the one keyword argument [greeting] *)

Definition PY_SSIZE_T_MAX : Z := 2 ^ 63 - 1.

(** What [get_integer] makes of a field name. *)
Inductive field_index :=
| NotAnIndex               (* a character that is not a digit: the name is a key *)
| TooManyDigits            (* the digits read so far exceed [PY_SSIZE_T_MAX]: [ValueError] *)
| Index (n : Z).

(** [get_integer]: the digits are read from the left, and the overflow of
    the digits read is found before the character that follows them is
    looked at. *)
Fixpoint get_integer (accumulator : Z) (name : string) : field_index :=
  match name with
  | EmptyString => Index accumulator
  | String c r =>
      if is_digit c then
        let digitval := Z.of_nat (nat_of_ascii c - 48) in
        if (PY_SSIZE_T_MAX - digitval) / 10 <? accumulator then TooManyDigits
        else get_integer (accumulator * 10 + digitval) r
      else NotAnIndex
  end.

(** The object a plain field name stands for: an empty or numeric name asks
    for a positional argument and there is none. *)
Definition lookup_field (name greeting : string) : result string :=
  if String.eqb name "" then Err IndexError
  else
    match get_integer 0 name with
    | TooManyDigits => Err ValueError
    | Index _ => Err IndexError
    | NotAnIndex => if String.eqb name "greeting" then Ok greeting else Err KeyError
    end.

Inductive fmt_mode :=
| InText
| InField (name : string).

Definition extended_char (c : ascii) : bool :=
  Ascii.eqb c "[" || Ascii.eqb c ":" || Ascii.eqb c "!" || Ascii.eqb c "."
  || negb (is_ascii c).

Fixpoint format_go (w : World) (template greeting : string)
    (mode : fmt_mode) (t : string) (out : string) : result string :=
  match mode, t with
  | InText, EmptyString => Ok out
  | InText, String c r =>
      if Ascii.eqb c "{" then
        match r with
        | EmptyString => Err ValueError
        | String c2 r2 =>
            if Ascii.eqb c2 "{" then format_go w template greeting InText r2 (out +:+ "{")
            else format_go w template greeting (InField "") r out
        end
      else if Ascii.eqb c "}" then
        match r with
        | EmptyString => Err ValueError
        | String c2 r2 =>
            if Ascii.eqb c2 "}" then format_go w template greeting InText r2 (out +:+ "}")
            else Err ValueError
        end
      else format_go w template greeting InText r (out +:+ String c "")
  | InField name, EmptyString => Err ValueError
  | InField name, String c r =>
      if Ascii.eqb c "}" then
        match lookup_field name greeting with
        | Ok v => format_go w template greeting InText r (out +:+ v)
        | Err e => Err e
        end
      else if Ascii.eqb c "{" then Err ValueError
      else if extended_char c then format_extended w template greeting
      else format_go w template greeting (InField (name +:+ String c "")) r out
  end.

Definition py_format (w : World) (template greeting : string) : result string :=
  format_go w template greeting InText template "".

(** [template_body.format(greeting=greeting)]: only text has the method. *)
Definition format_body (w : World) (template_body : pyval) (greeting : string) : result string :=
  match template_body with
  | PStr t => py_format w t greeting
  | _ => Err AttributeError
  end.

(** [formataddr(("Akash Sakhare", address))]: the address is encoded to
    ASCII first. *)
Definition formataddr (address : pyval) : result string :=
  match address with
  | PStr a =>
      if str_forall is_ascii a then Ok ("Akash Sakhare <" +:+ a +:+ ">")
      else Err ValueError
  | _ => Err AttributeError
  end.

(** ** Events, effects and the state of the process *)

(** The messages of [log_message], one constructor for each call. *)
Inductive event :=
| EvStarted                                   (* "Email sending process started." *)
| EvMissingConfig                             (* "ERROR: Missing credentials, stopper value, or default CSV file." *)
| EvNoEmailColumn (csv_file_path : pyval)     (* "ERROR: No 'email' column found in .." *)
| EvLoaded (n : nat) (csv_file_path : pyval)  (* "Loaded n emails from .." *)
| EvCsvError (e : exn)                        (* "ERROR loading CSV file: .." *)
| EvAllSent                                   (* "All emails have already been sent!" *)
| EvPreparing (first last : Z)                (* "Preparing to send emails from index .. to .." *)
| EvConnected                                 (* "Successfully connected to Gmail SMTP server." *)
| EvConnectFailed (e : exn)                   (* "ERROR: Failed to connect to SMTP server. .." *)
| EvAttachWarning (receiver : string) (e : exn)  (* "Warning: Could not attach resume for .." *)
| EvResumeNotFound (resume_filename : pyval)  (* "Warning: Resume file '..' not found. .." *)
| EvSuccess (receiver : string) (current_counter : Z) (total : nat)
                                              (* "SUCCESS: Email sent to r (c/total)" *)
| EvSendError (receiver : string) (e : exn)   (* "ERROR sending to r: .." *)
| EvBatchFinished.                            (* "Batch finished. SMTP server connection closed." *)

(** What a run does to the outside, in the order in which it does it. *)
Inductive effect :=
| TLog (ev : event)                                   (* [log_message] *)
| TSendmail (i : Z) (m : message) (r : option exn)    (* [server.sendmail] and its outcome *)
| TSave (counter : Z)                                 (* [save_counter] *)
| TSleep (seconds : Z)                                (* [time.sleep] *)
| TQuit.                                              (* [server.quit] *)

Record state := {
  config_file : option stored;             (* config.json *)
  counter_file : option stored;            (* email_counter.json *)
  LOGS : list event;                       (* the global LOGS *)
  threads : list (gmap string pyval);      (* the sending threads started, latest first, by their argument *)
  trace : list effect                      (* the effects so far, oldest first *)
}.

(** How a block of statements ends: it falls through with a value, it
    executes [return], or it raises. *)
Inductive ctrl (A : Type) :=
| Normal (a : A)
| Returned
| Raised (e : exn).
Arguments Normal {A} a.
Arguments Returned {A}.
Arguments Raised {A} e.

Definition M (A : Type) : Type := state -> ctrl A * state.

Definition ret {A : Type} (a : A) : M A := fun st => (Normal a, st).

Definition bind {A B : Type} (m : M A) (k : A -> M B) : M B :=
  fun st =>
    match m st with
    | (Normal a, st') => k a st'
    | (Returned, st') => (Returned, st')
    | (Raised e, st') => (Raised e, st')
    end.

Declare Scope py_scope.
Delimit Scope py_scope with py.
Notation "x <- m ;; k" := (bind m (fun x => k))
  (at level 100, m at next level, right associativity) : py_scope.
Notation "m ;; k" := (bind m (fun _ => k))
  (at level 100, right associativity) : py_scope.
Open Scope py_scope.

(** [return] *)
Definition py_return {A : Type} : M A := fun st => (Returned, st).

(** [raise e] *)
Definition raise {A : Type} (e : exn) : M A := fun st => (Raised e, st).

(** An expression that yields a value or raises. *)
Definition lift {A : Type} (r : result A) : M A :=
  match r with
  | Ok a => ret a
  | Err e => raise e
  end.

(** A call that yields nothing and may raise. *)
Definition check (r : option exn) : M unit :=
  match r with
  | None => ret tt
  | Some e => raise e
  end.

(** [try: body  except Exception as e: handler e] *)
Definition try_except {A : Type} (body : M A) (handler : exn -> M A) : M A :=
  fun st =>
    match body st with
    | (Raised e, st') => handler e st'
    | other => other
    end.

(** [for i in range(i0, i0 + n): body i] *)
Fixpoint for_range (n : nat) (i : Z) (body : Z -> M unit) : M unit :=
  match n with
  | O => ret tt
  | S k => body i ;; for_range k (i + 1) body
  end.

Definition emit (t : effect) : M unit :=
  fun st =>
    (Normal tt,
     {| config_file := config_file st; counter_file := counter_file st;
        LOGS := LOGS st; threads := threads st; trace := trace st ++ [t] |}).

(** [log_message(message)] *)
Definition log_message (ev : event) : M unit :=
  fun st =>
    (Normal tt,
     {| config_file := config_file st; counter_file := counter_file st;
        LOGS := LOGS st ++ [ev]; threads := threads st;
        trace := trace st ++ [TLog ev] |}).

(** [LOGS.clear()] *)
Definition clear_logs : M unit :=
  fun st =>
    (Normal tt,
     {| config_file := config_file st; counter_file := counter_file st;
        LOGS := []; threads := threads st; trace := trace st |}).

(** [save_counter(counter)] *)
Definition save_counter (counter : Z) : M unit :=
  fun st =>
    (Normal tt,
     {| config_file := config_file st; counter_file := counter_doc counter;
        LOGS := LOGS st; threads := threads st;
        trace := trace st ++ [TSave counter] |}).

(** [time.sleep(seconds)] *)
Definition sleep (seconds : Z) : M unit := emit (TSleep seconds).

(** Reading the two files. *)
Definition read_counter_file : M (option stored) := fun st => (Normal (counter_file st), st).
Definition read_config_file : M (option stored) := fun st => (Normal (config_file st), st).

(** ** [send_emails_task] *)

(** The [try] block that loads the address list (lines 156 to 169). *)
Definition load_email_list (w : World) (csv_file_path : pyval) : M (list string) :=
  try_except
    (full_csv_path <- lift (path_join UPLOAD_FOLDER csv_file_path) ;;
     data <- lift (read_csv w full_csv_path) ;;
     match List.find (fun col => contains "email" (lower (fst col))) data with
     | None => log_message (EvNoEmailColumn csv_file_path) ;; py_return
     | Some email_column =>
         email_list <- lift (stripped_texts (snd email_column)) ;;
         log_message (EvLoaded (length email_list) csv_file_path) ;;
         ret email_list
     end)
    (fun e => log_message (EvCsvError e) ;; py_return).

(** The variables of the task that the loop reads. *)
Record locals := {
  sender_email : pyval;
  template_subject : pyval;
  template_body : pyval;
  resume_filename : pyval;
  resume_path : option string;
  email_list : list string
}.

(** Attaching the resume (lines 203 to 213): the path attached, if any. *)
Definition attach_resume (w : World) (L : locals) (i : Z) (receiver : string) : M (option string) :=
  let warn_missing : M (option string) :=
    if truthy (resume_filename L) then
      log_message (EvResumeNotFound (resume_filename L)) ;; ret None
    else ret None in
  match resume_path L with
  | Some p =>
      if negb (String.eqb p "") && path_exists w i p then
        try_except
          (check (read_attachment w i p) ;; ret (Some p))
          (fun e => log_message (EvAttachWarning receiver e) ;; ret None)
      else warn_missing
  | None => warn_missing
  end.

(** [server.sendmail(sender_email, receiver, msg.as_string())] *)
Definition server_sendmail (w : World) (i : Z) (m : message) : M unit :=
  emit (TSendmail i m (sendmail w i m)) ;; check (sendmail w i m).

(** The body of the loop (lines 192 to 224). *)
Definition send_one (w : World) (L : locals) (i : Z) : M unit :=
  receiver <- lift (py_index (email_list L) i) ;;
  let greeting := "Hi " +:+ extract_name receiver in
  from <- lift (formataddr (sender_email L)) ;;
  body <- lift (format_body w (template_body L) greeting) ;;
  attachment <- attach_resume w L i receiver ;;
  let msg := {| msg_from := from; msg_to := receiver;
                msg_subject := template_subject L; msg_body := body;
                msg_attachment := attachment |} in
  try_except
    (server_sendmail w i msg ;;
     let current_counter := i + 1 in
     log_message (EvSuccess receiver current_counter (length (email_list L))) ;;
     save_counter current_counter ;;
     sleep 5)
    (fun e => log_message (EvSendError receiver e)).

(** [min(start_counter + stopper_value, len(email_list))] *)
Definition end_counter (start_counter stopper_value : Z) (email_list : list string) : Z :=
  Z.min (start_counter + stopper_value) (Z.of_nat (length email_list)).

(** The task up to the computation of the window (lines 134 to 172): the
    variables of the loop, [start_counter] and [end_counter]. *)
Definition read_window (w : World) (config : gmap string pyval) : M (locals * Z * Z) :=
  clear_logs ;;
  log_message EvStarted ;;
  let sender_email := dict_get config "email" PNone in
  let app_password := dict_get config "password" PNone in
  stopper_value <- lift (py_int w (dict_get config "stopper" (PInt 100))) ;;
  let csv_file_path := dict_get config "default_file" PNone in
  (* [template_name] is read and never used *)
  let template_subject := dict_get config "template_subject" (PStr "Hello") in
  let template_body := dict_get config "template_body" (PStr "Hi {greeting}") in
  let resume_filename := dict_get config "resume_file" PNone in
  if negb (forallb truthy [sender_email; app_password; csv_file_path]) then
    log_message EvMissingConfig ;; py_return
  else
    resume_path <-
      (if truthy resume_filename
       then p <- lift (path_join UPLOAD_FOLDER resume_filename) ;; ret (Some p)
       else ret None) ;;
    email_list <- load_email_list w csv_file_path ;;
    counter_file <- read_counter_file ;;
    counter <- lift (load_counter counter_file) ;;
    start_counter <- lift (match as_int counter with Some z => Ok z | None => Err TypeError end) ;;
    let end_counter := end_counter start_counter stopper_value email_list in
    ret ({| sender_email := sender_email; template_subject := template_subject;
            template_body := template_body; resume_filename := resume_filename;
            resume_path := resume_path; email_list := email_list |},
         start_counter, end_counter).

(** The task from the window on (lines 174 to 227). *)
Definition send_window (w : World) (app_password : pyval) (L : locals)
    (start_counter end_counter : Z) : M unit :=
  if Z.of_nat (length (email_list L)) <=? start_counter then
    log_message EvAllSent ;; py_return
  else
    log_message (EvPreparing start_counter (end_counter - 1)) ;;
    try_except
      (check (smtp_connect w (sender_email L) app_password) ;;
       log_message EvConnected)
      (fun e => log_message (EvConnectFailed e) ;; py_return) ;;
    for_range (Z.to_nat (end_counter - start_counter)) start_counter (send_one w L) ;;
    emit TQuit ;;
    check (smtp_quit w) ;;
    log_message EvBatchFinished.

Definition send_emails_task (w : World) (config : gmap string pyval) : M unit :=
  window <- read_window w config ;;
  let '(L, start_counter, end_counter) := window in
  send_window w (dict_get config "password" PNone) L start_counter end_counter.

(** ** The routes [/api/status] and [/api/send] *)

(** [get_status]: the JSON object of the response. *)
Definition get_status (w : World) : M (gmap string pyval) :=
  config_file <- read_config_file ;;
  config <- lift (load_config config_file) ;;
  counter_file <- read_counter_file ;;
  counter <- lift (load_counter counter_file) ;;
  stopper <- lift (py_get config "stopper" (PInt 100)) ;;
  stopper <- lift (py_int w stopper) ;;
  email <- lift (py_get config "email" (PStr "")) ;;
  ret ({[ "counter" := counter; "stopper" := PInt stopper; "email" := email ]}).

(** [template_name in all_templates], with the entry found: a list or a
    dict cannot be hashed. *)
Definition template_lookup (template_name : pyval) : result (option (string * string)) :=
  match template_name with
  | PStr s => Ok (get_email_templates !! s)
  | PList _ => Err TypeError
  | PDict _ => Err TypeError
  | _ => Ok None
  end.

(** [Thread(target=send_emails_task, args=(send_config,)).start()]: the
    thread is recorded with its argument.  What it then does is
    [send_emails_task], which [run_task] observes on its own; the steps of
    several threads are not interleaved here. *)
Definition start_thread (send_config : gmap string pyval) : M unit :=
  fun st =>
    (Normal tt,
     {| config_file := config_file st; counter_file := counter_file st;
        LOGS := LOGS st; threads := send_config :: threads st;
        trace := trace st |}).

Definition start_sending : M (gmap string pyval) :=
  config_file <- read_config_file ;;
  config <- lift (load_config config_file) ;;
  template_info <- lift (py_get config "current_template" (PDict ∅)) ;;
  template_name <- lift (py_get template_info "name" (PStr "default")) ;;
  builtin <- lift (template_lookup template_name) ;;
  let custom : M (pyval * pyval) :=
    subject <- lift (py_get template_info "subject" (PStr "Hello")) ;;
    body <- lift (py_get template_info "body" (PStr "Hi {greeting}")) ;;
    ret (subject, body) in
  template <-
    match builtin with
    | Some (subject, body) =>
        saved_body <- lift (py_get template_info "body" PNone) ;;
        if negb (truthy saved_body) then ret (PStr subject, PStr body) else custom
    | None => custom
    end ;;
  let '(template_subject, template_body) := template in
  email <- lift (py_get config "email" PNone) ;;
  password <- lift (py_get config "password" PNone) ;;
  stopper <- lift (py_get config "stopper" (PInt 100)) ;;
  default_file <- lift (py_get config "default_file" PNone) ;;
  resume_file <- lift (py_get config "resume_file" PNone) ;;
  let send_config : gmap string pyval :=
    {[ "email" := email; "password" := password; "stopper" := stopper;
       "default_file" := default_file; "resume_file" := resume_file;
       "template_name" := template_name; "template_subject" := template_subject;
       "template_body" := template_body ]} in
  start_thread send_config ;;
  ret ({[ "success" := PBool true;
          "message" := PStr "Email sending process initiated." ]}).

(** ** Runs and their traces *)

(** The state in which a run is observed: the same files and logs, no
    effect recorded yet. *)
Definition fresh (st : state) : state :=
  {| config_file := config_file st; counter_file := counter_file st;
     LOGS := LOGS st; threads := threads st; trace := [] |}.

(** One run of the task, observed from its beginning. *)
Definition run_task (w : World) (config : gmap string pyval) (st : state) : ctrl unit * state :=
  send_emails_task w config (fresh st).

(** Runs one after the other, each with its surroundings and its
    argument; the trace goes on. *)
Fixpoint run_all (runs : list (World * gmap string pyval)) (st : state) : state :=
  match runs with
  | [] => st
  | (w, config) :: rest => run_all rest (snd (send_emails_task w config st))
  end.

(** The counter file after the effects [T]. *)
Fixpoint replay (T : list effect) (counter_file : option stored) : option stored :=
  match T with
  | [] => counter_file
  | TSave c :: T' => replay T' (counter_doc c)
  | _ :: T' => replay T' counter_file
  end.

(** The messages logged by the effects [T]. *)
Fixpoint logs_of (T : list effect) : list event :=
  match T with
  | [] => []
  | TLog ev :: T' => ev :: logs_of T'
  | _ :: T' => logs_of T'
  end.

(** The state after the effects [T]. *)
Definition after (st : state) (T : list effect) : state :=
  {| config_file := config_file st; counter_file := replay T (counter_file st);
     LOGS := LOGS st ++ logs_of T; threads := threads st; trace := trace st ++ T |}.

Definition cleared (st : state) : state :=
  {| config_file := config_file st; counter_file := counter_file st;
     LOGS := []; threads := threads st; trace := trace st |}.

(** The indices whose send succeeded, in the order of the sends. *)
Fixpoint sent_ok (T : list effect) : list Z :=
  match T with
  | [] => []
  | TSendmail i _ None :: T' => i :: sent_ok T'
  | _ :: T' => sent_ok T'
  end.

(** The indices at which a send was attempted, in order. *)
Fixpoint attempted (T : list effect) : list Z :=
  match T with
  | [] => []
  | TSendmail i _ _ :: T' => i :: attempted T'
  | _ :: T' => attempted T'
  end.

(** Whether each send succeeded, in order. *)
Fixpoint send_outcomes (T : list effect) : list bool :=
  match T with
  | [] => []
  | TSendmail _ _ r :: T' => bool_decide (r = None) :: send_outcomes T'
  | _ :: T' => send_outcomes T'
  end.

Definition is_log (t : effect) : bool :=
  match t with
  | TLog _ => true
  | _ => false
  end.

Definition is_warning (t : effect) : bool :=
  match t with
  | TLog (EvAttachWarning _ _) => true
  | TLog (EvResumeNotFound _) => true
  | _ => false
  end.

Definition is_all_sent (ev : event) : bool :=
  match ev with
  | EvAllSent => true
  | _ => false
  end.

(** The integer a stored counter stands for, when the task can start from it. *)
Definition cursor (counter_file : option stored) : option Z :=
  match load_counter counter_file with
  | Ok v => as_int v
  | Err _ => None
  end.

(** The effects of one iteration of the loop that reaches the send. *)
Inductive iter_seg (L : locals) (i : Z) : list effect -> Prop :=
| seg_sent W m :
    forallb is_warning W = true ->
    py_index (email_list L) i = Ok (msg_to m) ->
    iter_seg L i
      (W ++ [TSendmail i m None;
             TLog (EvSuccess (msg_to m) (i + 1) (length (email_list L)));
             TSave (i + 1); TSleep 5])
| seg_failed W m e :
    forallb is_warning W = true ->
    py_index (email_list L) i = Ok (msg_to m) ->
    iter_seg L i (W ++ [TSendmail i m (Some e); TLog (EvSendError (msg_to m) e)]).

(** The effects of the loop over [n] indices from [i] on, with the way the
    loop ends: an iteration that raises does so before it has any effect. *)
Inductive loop_trace (L : locals) : Z -> nat -> list effect -> ctrl unit -> Prop :=
| loop_done i : loop_trace L i 0 [] (Normal tt)
| loop_raised i n e : loop_trace L i (S n) [] (Raised e)
| loop_step i n seg T c :
    iter_seg L i seg -> loop_trace L (i + 1) n T c ->
    loop_trace L i (S n) (seg ++ T) c.

(** What follows the loop, by the way the loop ends: the control of the
    task and the effects after the loop. *)
Definition loop_end (w : World) (cl c : ctrl unit) (post : list effect) : Prop :=
  match cl with
  | Raised x => c = Raised x /\ post = []
  | Returned => False
  | Normal _ =>
      match smtp_quit w with
      | Some x => c = Raised x /\ post = [TQuit]
      | None => c = Normal tt /\ post = [TQuit; TLog EvBatchFinished]
      end
  end.

Definition is_quiet (t : effect) : bool :=
  match t with
  | TLog _ => true
  | TQuit => true
  | _ => false
  end.

(** The index of the last successful send. *)
Definition last_sent (T : list effect) : option Z := last (sent_ok T).

(** Every successful send is followed at once by its message, by the save
    of the next index and by the pause of five seconds. *)
Fixpoint persisted_at_once (T : list effect) : bool :=
  match T with
  | [] => true
  | TSendmail i m None :: T' =>
      match T' with
      | TLog (EvSuccess r c _) :: TSave c' :: TSleep d :: _ =>
          String.eqb r (msg_to m) && (c =? i + 1) && (c' =? i + 1) && (d =? 5)
          && persisted_at_once T'
      | _ => false
      end
  | _ :: T' => persisted_at_once T'
  end.

(** The counters saved, in order. *)
Fixpoint saved (T : list effect) : list Z :=
  match T with
  | [] => []
  | TSave c :: T' => c :: saved T'
  | _ :: T' => saved T'
  end.

(** A computation that looks at nothing of the state but the counter
    file: from two states with the same counter file it ends in the same
    way and leaves the same counter file. *)
Definition counter_only {A : Type} (m : M A) : Prop :=
  forall st st2,
    counter_file st2 = counter_file st ->
    fst (m st2) = fst (m st) /\
    counter_file (snd (m st2)) = counter_file (snd (m st)).

(** ** The reading of the design document *)



(** The status document of the design: three integer fields, the cursor,
    the number of recipients and the batch limit, under whatever names. *)
Definition spec_status (response : gmap string pyval) (cursor total stopper : Z) : Prop :=
  exists kc kt ks : string,
    kc <> kt /\ kc <> ks /\ kt <> ks /\
    dom response = {[ kc; kt; ks ]} /\
    response !! kc = Some (PInt cursor) /\
    response !! kt = Some (PInt total) /\
    response !! ks = Some (PInt stopper).

(** The fields the design document lists in a dispatch configuration. *)
Definition spec_config_fields : list string :=
  ["email"; "password"; "stopper"; "default_file";
   "template_subject"; "template_body"; "resume_file"].

(** Every listed field present and non-empty. *)
Definition spec_config_complete (config : gmap string pyval) : bool :=
  forallb (fun k => truthy (dict_get config k PNone)) spec_config_fields.

(** The fields the task requires. *)
Definition config_complete (config : gmap string pyval) : bool :=
  forallb (fun k => truthy (dict_get config k PNone)) ["email"; "password"; "default_file"].

(** ** A sample campaign

    Three recipients in a file [list.csv], a batch limit of two, and a
    relay that can be told which indices to refuse. *)

Definition sample_frame : frame :=
  [("Name", Texts [Some "Ann"; Some "Nobody"; Some "Bob"; Some "Cy"]);
   ("Email", Texts [Some " ann.lee@x.com "; None; Some "bob@y.org"; Some "cy@z.net"])].

Definition sample_world (refused : Z -> bool) : World :=
  {| int_of_str := fun _ => None;
     format_extended := fun _ _ => Err ValueError;
     read_csv := fun path =>
       if String.eqb path "uploads/list.csv" then Ok sample_frame
       else Err (OtherError "FileNotFoundError");
     smtp_connect := fun _ _ => None;
     path_exists := fun _ _ => false;
     read_attachment := fun _ _ => None;
     sendmail := fun i _ =>
       if refused i then Some (OtherError "SMTPRecipientsRefused") else None;
     smtp_quit := None |}.

Definition sample_config : gmap string pyval :=
  {[ "email" := PStr "me@x.com"; "password" := PStr "abcdabcdabcdabcd";
     "default_file" := PStr "list.csv"; "stopper" := PInt 2 ]}.

Definition sample_state (counter_file : option stored) : state :=
  {| config_file := Some (Doc (PDict sample_config)); counter_file := counter_file;
     LOGS := []; threads := []; trace := [] |}.

(** The message for a receiver under the default template, whose body
    is ["Hi {greeting}"] around the greeting ["Hi <name>"]. *)
Definition sample_message (receiver : string) : message :=
  {| msg_from := "Akash Sakhare <me@x.com>"; msg_to := receiver;
     msg_subject := PStr "Hello";
     msg_body := "Hi Hi " +:+ extract_name receiver;
     msg_attachment := None |}.


(** ** The routes that edit [config.json]

    The body of a request is the value that [request.json] yields; the
    answer of a route is the JSON object of the response with its status
    code. *)

Definition response : Type := gmap string pyval * Z.

(** [save_config(data)]: the file is rewritten and holds [data]. *)
Definition save_config (data : pyval) : M unit :=
  fun st =>
    (Normal tt,
     {| config_file := Some (Doc data); counter_file := counter_file st;
        LOGS := LOGS st; threads := threads st; trace := trace st |}).

(** [c[k] = v]: only a dict takes a text key. *)
Definition py_setitem (c : pyval) (k : string) (v : pyval) : result pyval :=
  match c with
  | PDict d => Ok (PDict (<[k := v]> d))
  | _ => Err TypeError
  end.

(** [del c[k]] *)
Definition py_delitem (c : pyval) (k : string) : result pyval :=
  match c with
  | PDict d =>
      match d !! k with
      | Some _ => Ok (PDict (delete k d))
      | None => Err KeyError
      end
  | _ => Err TypeError
  end.

(** [k in c] for a text [k]: a key of a dict, an element of a list, a part
    of a text; the other values cannot be iterated. *)
Definition py_in (k : string) (c : pyval) : result bool :=
  match c with
  | PDict d => Ok (bool_decide (is_Some (d !! k)))
  | PList l =>
      Ok (existsb (fun v => match v with PStr s => String.eqb s k | _ => false end) l)
  | PStr s => Ok (contains k s)
  | _ => Err TypeError
  end.

(** The number of code points of a text in UTF-8: the bytes that do not
    continue a character. *)
Fixpoint utf8_length (s : string) : nat :=
  match s with
  | EmptyString => O
  | String c r =>
      let n := nat_of_ascii c in
      if ((128 <=? n) && (n <? 192))%nat then utf8_length r else S (utf8_length r)
  end.

(** [len(v)] *)
Definition py_len (v : pyval) : result Z :=
  match v with
  | PStr s => Ok (Z.of_nat (utf8_length s))
  | PList l => Ok (Z.of_nat (length l))
  | PDict d => Ok (Z.of_nat (size d))
  | _ => Err TypeError
  end.

(** [try: body  except (ValueError, TypeError): handler] *)
Definition try_except_value_type {A : Type} (body : M A) (handler : M A) : M A :=
  fun st =>
    match body st with
    | (Raised ValueError, st') => handler st'
    | (Raised TypeError, st') => handler st'
    | other => other
    end.

(** [/api/save-credentials] *)
Definition save_credentials (data : pyval) : M response :=
  email <- lift (py_get data "email" PNone) ;;
  password <- lift (py_get data "password" PNone) ;;
  if negb (truthy email) || negb (truthy password) then
    ret ({[ "error" := PStr "Email and password are required." ]}, 400)
  else
    wrong_length <-
      (if negb (truthy password) then ret true
       else n <- lift (py_len password) ;; ret (negb (n =? 16))) ;;
    if (wrong_length : bool) then
      ret ({[ "error" := PStr "App Password must be 16 characters long." ]}, 400)
    else
      config_file <- read_config_file ;;
      config <- lift (load_config config_file) ;;
      config <- lift (py_setitem config "email" email) ;;
      config <- lift (py_setitem config "password" password) ;;
      save_config config ;;
      ret ({[ "success" := PBool true;
              "message" := PStr "Credentials saved successfully." ]}, 200).

(** [/api/credentials/clear] *)
Definition clear_credentials : M response :=
  config_file <- read_config_file ;;
  config <- lift (load_config config_file) ;;
  has_email <- lift (py_in "email" config) ;;
  config <- (if (has_email : bool) then lift (py_delitem config "email") else ret config) ;;
  has_password <- lift (py_in "password" config) ;;
  config <- (if (has_password : bool) then lift (py_delitem config "password")
             else ret config) ;;
  save_config config ;;
  ret ({[ "success" := PBool true; "message" := PStr "Credentials cleared." ]}, 200).

(** [/api/templates/save] *)
Definition save_template (data : pyval) : M response :=
  config_file <- read_config_file ;;
  config <- lift (load_config config_file) ;;
  name <- lift (py_get data "name" PNone) ;;
  subject <- lift (py_get data "subject" PNone) ;;
  body <- lift (py_get data "body" PNone) ;;
  config <- lift (py_setitem config "current_template"
                    (PDict {[ "name" := name; "subject" := subject; "body" := body ]})) ;;
  save_config config ;;
  ret ({[ "success" := PBool true ]}, 200).

(** [/api/stopper] *)
Definition set_stopper (w : World) (request_json : pyval) : M response :=
  value <- lift (py_get request_json "value" PNone) ;;
  try_except_value_type
    (stopper_value <- lift (py_int w value) ;;
     (if stopper_value <=? 0 then raise ValueError else ret tt) ;;
     config_file <- read_config_file ;;
     config <- lift (load_config config_file) ;;
     config <- lift (py_setitem config "stopper" (PInt stopper_value)) ;;
     save_config config ;;
     ret ({[ "success" := PBool true ]}, 200))
    (ret ({[ "error" := PStr "Invalid stopper value. Must be a positive number." ]}, 400)).

(** The argument of the sending thread that [start_sending] builds from a
    configuration dict and the template it resolved. *)
Definition send_config_of (d : gmap string pyval)
    (template_name template_subject template_body : pyval) : gmap string pyval :=
  {[ "email" := dict_get d "email" PNone; "password" := dict_get d "password" PNone;
     "stopper" := dict_get d "stopper" (PInt 100);
     "default_file" := dict_get d "default_file" PNone;
     "resume_file" := dict_get d "resume_file" PNone;
     "template_name" := template_name; "template_subject" := template_subject;
     "template_body" := template_body ]}.

(** The subject and the body that [start_sending] resolves (lines 429 to
    434) from the saved template [info] and the built-in template of its
    name, if there is one. *)
Definition resolve_template (info : gmap string pyval) (builtin : option (string * string))
    : pyval * pyval :=
  let custom := (dict_get info "subject" (PStr "Hello"),
                 dict_get info "body" (PStr "Hi {greeting}")) in
  match builtin with
  | Some (subject, body) =>
      if negb (truthy (dict_get info "body" PNone)) then (PStr subject, PStr body)
      else custom
  | None => custom
  end.

(** The state with one more thread started. *)
Definition with_thread (send_config : gmap string pyval) (st : state) : state :=
  {| config_file := config_file st; counter_file := counter_file st;
     LOGS := LOGS st; threads := send_config :: threads st; trace := trace st |}.

(** The state with [config.json] rewritten. *)
Definition with_config (data : pyval) (st : state) : state :=
  {| config_file := Some (Doc data); counter_file := counter_file st;
     LOGS := LOGS st; threads := threads st; trace := trace st |}.

(** * Properties *)

(** ** Sanity checks of the string functions *)

Example extract_name_dotted : extract_name "john.doe@x.com" = "John Doe".
Proof. reflexivity. Qed.

Example extract_name_empty : extract_name "@x.com" = "there".
Proof. reflexivity. Qed.

Example extract_name_digits : extract_name "a1b2@x.com" = "A B".
Proof. reflexivity. Qed.

(** ** Effects and states *)

Lemma replay_app T1 T2 cf : replay (T1 ++ T2) cf = replay T2 (replay T1 cf).
Proof.
  revert cf. induction T1 as [|t T1 IH]; intros cf; simpl; [reflexivity|].
  destruct t; apply IH.
Qed.

Lemma logs_of_app T1 T2 : logs_of (T1 ++ T2) = logs_of T1 ++ logs_of T2.
Proof.
  induction T1 as [|t T1 IH]; simpl; [reflexivity|].
  destruct t; simpl; rewrite ?IH; reflexivity.
Qed.

Lemma sent_ok_app T1 T2 : sent_ok (T1 ++ T2) = sent_ok T1 ++ sent_ok T2.
Proof.
  induction T1 as [|t T1 IH]; simpl; [reflexivity|].
  destruct t as [| i m [e|] | | |]; simpl; rewrite ?IH; reflexivity.
Qed.

Lemma attempted_app T1 T2 : attempted (T1 ++ T2) = attempted T1 ++ attempted T2.
Proof.
  induction T1 as [|t T1 IH]; simpl; [reflexivity|].
  destruct t; simpl; rewrite ?IH; reflexivity.
Qed.

Lemma send_outcomes_app T1 T2 :
  send_outcomes (T1 ++ T2) = send_outcomes T1 ++ send_outcomes T2.
Proof.
  induction T1 as [|t T1 IH]; simpl; [reflexivity|].
  destruct t; simpl; rewrite ?IH; reflexivity.
Qed.

Lemma after_nil st : after st [] = st.
Proof. destruct st; unfold after; simpl. rewrite !app_nil_r. reflexivity. Qed.

Lemma after_app st T1 T2 : after (after st T1) T2 = after st (T1 ++ T2).
Proof.
  unfold after; simpl.
  rewrite replay_app, logs_of_app, !app_assoc. reflexivity.
Qed.

Lemma log_message_after ev st : log_message ev st = (Normal tt, after st [TLog ev]).
Proof. reflexivity. Qed.

Lemma save_counter_after c st : save_counter c st = (Normal tt, after st [TSave c]).
Proof. unfold save_counter, after; simpl. rewrite app_nil_r. reflexivity. Qed.

Lemma emit_after t st :
  match t with TLog _ | TSave _ => False | _ => True end ->
  emit t st = (Normal tt, after st [t]).
Proof.
  intros Ht. unfold emit, after.
  destruct t; try contradiction; simpl; rewrite app_nil_r; reflexivity.
Qed.

(** Warnings leave the counter file alone and count neither as a send nor
    as a success. *)
Lemma warnings_quiet W :
  forallb is_warning W = true ->
  (forall cf, replay W cf = cf) /\ sent_ok W = [] /\ attempted W = [] /\
  send_outcomes W = [] /\ forallb is_log W = true.
Proof.
  induction W as [|t W IH]; simpl; [intros _; repeat split; reflexivity|].
  intros H. apply andb_true_iff in H as [Ht HW].
  destruct (IH HW) as (IH1 & IH2 & IH3 & IH4 & IH5).
  destruct t as [ev | | | |]; try discriminate.
  repeat split; auto.
Qed.

Lemma logs_quiet W :
  forallb is_log W = true ->
  (forall cf, replay W cf = cf) /\ sent_ok W = [] /\ attempted W = [] /\
  send_outcomes W = [].
Proof.
  induction W as [|t W IH]; simpl; [intros _; repeat split; reflexivity|].
  intros H. apply andb_true_iff in H as [Ht HW].
  destruct (IH HW) as (IH1 & IH2 & IH3 & IH4).
  destruct t as [ev | | | |]; try discriminate.
  repeat split; auto.
Qed.

(** ** The loop *)

Lemma check_inv (r : option exn) st c st' :
  check r st = (c, st') ->
  st' = st /\ match r with None => c = Normal tt | Some e => c = Raised e end.
Proof. destruct r; simpl; unfold ret, raise; intros [= <- <-]; auto. Qed.

Lemma attach_resume_spec w L i receiver st c st' :
  attach_resume w L i receiver st = (c, st') ->
  exists W a, c = Normal a /\ st' = after st W /\ forallb is_warning W = true.
Proof.
  unfold attach_resume. intros H.
  assert (Hmiss : forall (c : ctrl (option string)) st',
    (if truthy (resume_filename L)
     then (log_message (EvResumeNotFound (resume_filename L)) ;; ret None)
     else ret None) st = (c, st') ->
    exists W a, c = Normal a /\ st' = after st W /\ forallb is_warning W = true).
  { clear. intros c st'. destruct (truthy (resume_filename L)).
    - unfold bind. rewrite log_message_after. unfold ret. intros [= <- <-].
      exists [TLog (EvResumeNotFound (resume_filename L))], None. auto.
    - unfold ret. intros [= <- <-]. exists [], None. rewrite after_nil. auto. }
  destruct (resume_path L) as [p|]; [|exact (Hmiss _ _ H)].
  destruct (negb (String.eqb p "") && path_exists w i p); [|exact (Hmiss _ _ H)].
  unfold try_except, bind in H.
  destruct (check (read_attachment w i p) st) as [c1 st1] eqn:E.
  apply check_inv in E as [-> E].
  destruct (read_attachment w i p) as [e|]; subst c1.
  - rewrite log_message_after in H. unfold ret in H. injection H as <- <-.
    exists [TLog (EvAttachWarning receiver e)], None. auto.
  - unfold ret in H. injection H as <- <-.
    exists [], (Some p). rewrite after_nil. auto.
Qed.

Lemma bind_lift {A B} (r : result A) (k : A -> M B) st :
  bind (lift r) k st = match r with Ok a => k a st | Err e => (Raised e, st) end.
Proof. destruct r; reflexivity. Qed.

Lemma bind_check {B} (r : option exn) (k : unit -> M B) st :
  bind (check r) k st = match r with None => k tt st | Some e => (Raised e, st) end.
Proof. destruct r; reflexivity. Qed.

Lemma bind_log {B} ev (k : unit -> M B) st :
  bind (log_message ev) k st = k tt (after st [TLog ev]).
Proof. reflexivity. Qed.

(** One iteration either raises before it has any effect or reaches the
    send and falls through. *)
Lemma send_one_spec w L i st c st' :
  send_one w L i st = (c, st') ->
  (exists e, c = Raised e /\ st' = st) \/
  (c = Normal tt /\ exists seg, iter_seg L i seg /\ st' = after st seg).
Proof.
  unfold send_one. intros H.
  rewrite bind_lift in H.
  destruct (py_index (email_list L) i) as [receiver|x] eqn:Hidx;
    [|injection H as <- <-; left; eauto].
  rewrite bind_lift in H.
  destruct (formataddr (sender_email L)) as [from|x];
    [|injection H as <- <-; left; eauto].
  rewrite bind_lift in H.
  destruct (format_body w (template_body L) _) as [body|x];
    [|injection H as <- <-; left; eauto].
  unfold bind in H at 1.
  destruct (attach_resume w L i receiver st) as [c1 st1] eqn:E.
  apply attach_resume_spec in E as (W & att & -> & -> & HW).
  right.
  set (msg := {| msg_from := from; msg_to := receiver;
                 msg_subject := template_subject L; msg_body := body;
                 msg_attachment := att |}) in *.
  unfold try_except, server_sendmail, bind in H.
  rewrite emit_after in H by exact I.
  destruct (sendmail w i msg) as [e|] eqn:Hs; simpl in H.
  - unfold raise in H. rewrite log_message_after in H. injection H as <- <-.
    split; [reflexivity|].
    exists (W ++ [TSendmail i msg (Some e); TLog (EvSendError (msg_to msg) e)]).
    split; [apply seg_failed; assumption|].
    rewrite !after_app. reflexivity.
  - injection H as <- <-.
    split; [reflexivity|].
    exists (W ++ [TSendmail i msg None;
                  TLog (EvSuccess (msg_to msg) (i + 1) (length (email_list L)));
                  TSave (i + 1); TSleep 5]).
    split; [apply seg_sent; assumption|].
    unfold after; simpl. rewrite replay_app, logs_of_app; simpl.
    rewrite ?app_nil_r, <- ?app_assoc; simpl. reflexivity.
Qed.

Lemma for_range_spec w L n : forall i st c st',
  for_range n i (send_one w L) st = (c, st') ->
  exists T, loop_trace L i n T c /\ st' = after st T.
Proof.
  induction n as [|n IH]; intros i st c st' H; simpl in H.
  - unfold ret in H. injection H as <- <-.
    exists []. split; [constructor | symmetry; apply after_nil].
  - unfold bind in H.
    destruct (send_one w L i st) as [c1 st1] eqn:E.
    apply send_one_spec in E as [(e & -> & ->) | (-> & seg & Hseg & ->)].
    + injection H as <- <-. exists []. split; [constructor | symmetry; apply after_nil].
    + apply IH in H as (T & HT & ->).
      exists (seg ++ T). split; [econstructor; eassumption | apply after_app].
Qed.

(** ** The task around the loop *)

Lemma bind_clear_logs {B} (k : unit -> M B) st :
  bind clear_logs k st = k tt (cleared st).
Proof. reflexivity. Qed.

Lemma logs_only evs :
  forallb is_log (TLog <$> evs) = true /\ logs_of (TLog <$> evs) = evs.
Proof.
  induction evs as [|ev evs [IH1 IH2]]; [split; reflexivity|].
  split; [exact IH1 | simpl; f_equal; exact IH2].
Qed.

Lemma load_email_list_spec w p st c st' :
  load_email_list w p st = (c, st') ->
  (exists l, c = Normal l /\ st' = after st [TLog (EvLoaded (length l) p)]) \/
  (c = Returned /\ exists ev, is_all_sent ev = false /\ st' = after st [TLog ev]).
Proof.
  unfold load_email_list, try_except. intros H.
  rewrite bind_lift in H.
  destruct (path_join UPLOAD_FOLDER p) as [path|x].
  2: { rewrite bind_log in H. injection H as <- <-. right. split; [reflexivity|].
       exists (EvCsvError x). auto. }
  rewrite bind_lift in H.
  destruct (read_csv w path) as [data|x].
  2: { rewrite bind_log in H. injection H as <- <-. right. split; [reflexivity|].
       exists (EvCsvError x). auto. }
  destruct (List.find _ data) as [col|].
  - rewrite bind_lift in H.
    destruct (stripped_texts (snd col)) as [l|x].
    + rewrite bind_log in H. injection H as <- <-. left. eauto.
    + rewrite bind_log in H. injection H as <- <-. right. split; [reflexivity|].
      exists (EvCsvError x). auto.
  - rewrite bind_log in H. injection H as <- <-. right. split; [reflexivity|].
    exists (EvNoEmailColumn p). auto.
Qed.

(** What [read_window] leaves behind: the logs are cleared, only messages
    are added, and none of them says that all emails were sent. *)
Lemma read_window_spec w config st c st1 :
  read_window w config st = (c, st1) ->
  exists evs,
    st1 = after (cleared st) (TLog <$> evs) /\
    forallb (fun ev => negb (is_all_sent ev)) evs = true /\
    match c with
    | Normal (L, s, e) =>
        exists stopper,
          py_int w (dict_get config "stopper" (PInt 100)) = Ok stopper /\
          config_complete config = true /\
          cursor (counter_file st) = Some s /\
          e = end_counter s stopper (email_list L) /\
          sender_email L = dict_get config "email" PNone /\
          template_body L = dict_get config "template_body" (PStr "Hi {greeting}") /\
          evs = [EvStarted;
                 EvLoaded (length (email_list L)) (dict_get config "default_file" PNone)]
    | Returned =>
        config_complete config = false /\ evs = [EvStarted; EvMissingConfig] \/
        config_complete config = true /\ exists ev, evs = [EvStarted; ev]
    | Raised x =>
        evs = [EvStarted] /\
        (py_int w (dict_get config "stopper" (PInt 100)) = Err x \/
         config_complete config = true) \/
        config_complete config = true /\ exists n p, evs = [EvStarted; EvLoaded n p]
    end.
Proof.
  unfold read_window. intros H.
  rewrite bind_clear_logs, bind_log, bind_lift in H.
  destruct (py_int w _) as [stopper|x] eqn:Hstop.
  2: { injection H as <- <-. exists [EvStarted]. auto 6. }
  change (forallb truthy _) with (config_complete config) in H.
  destruct (config_complete config) eqn:Hcc; cbn [negb] in H.
  2: { rewrite bind_log in H. injection H as <- <-.
       exists [EvStarted; EvMissingConfig]. rewrite after_app. auto. }
  unfold bind in H at 1.
  match type of H with
  | (match ?m ?s with _ => _ end) = _ => destruct (m s) as [c1 s1] eqn:Hres
  end.
  assert (Hpath : s1 = after (cleared st) [TLog EvStarted] /\
                  ((exists rp, c1 = Normal rp) \/ (exists x, c1 = Raised x))).
  { destruct (truthy (dict_get config "resume_file" PNone)).
    - rewrite bind_lift in Hres.
      destruct (path_join UPLOAD_FOLDER _); injection Hres as <- <-; eauto.
    - injection Hres as <- <-; eauto. }
  destruct Hpath as [-> [[rp ->] | [x ->]]].
  2: { injection H as <- <-. exists [EvStarted]. auto 6. }
  unfold bind in H at 1.
  destruct (load_email_list w _ _) as [c2 s2] eqn:Hload.
  apply load_email_list_spec in Hload
    as [(l & -> & ->) | (-> & ev & Hev & ->)].
  2: { injection H as <- <-. exists [EvStarted; ev].
       rewrite after_app. simpl. rewrite Hev. eauto 6. }
  rewrite after_app in H. simpl app in H.
  unfold bind in H at 1. unfold read_counter_file in H.
  rewrite bind_lift in H.
  change (counter_file (after (cleared st) _)) with (counter_file st) in H.
  destruct (load_counter (counter_file st)) as [v|x] eqn:Hctr.
  2: { injection H as <- <-. eexists [EvStarted; EvLoaded _ _].
       split; [reflexivity|]. split; [reflexivity|]. right. eauto. }
  rewrite bind_lift in H.
  destruct (as_int v) as [s|] eqn:Hs.
  2: { injection H as <- <-. eexists [EvStarted; EvLoaded _ _].
       split; [reflexivity|]. split; [reflexivity|]. right. eauto. }
  injection H as <- <-.
  eexists [EvStarted; EvLoaded _ _].
  split; [reflexivity|]. split; [reflexivity|].
  exists stopper. unfold cursor. rewrite Hctr. simpl. auto 10.
Qed.

Lemma send_window_spec w pw L s e st c st' :
  send_window w pw L s e st = (c, st') ->
  (Z.of_nat (length (email_list L)) <= s /\ c = Returned /\
   st' = after st [TLog EvAllSent]) \/
  (s < Z.of_nat (length (email_list L)) /\
   ((exists x, smtp_connect w (sender_email L) pw = Some x /\ c = Returned /\
       st' = after st [TLog (EvPreparing s (e - 1)); TLog (EvConnectFailed x)]) \/
    (smtp_connect w (sender_email L) pw = None /\
     exists T cl post,
       loop_trace L s (Z.to_nat (e - s)) T cl /\
       loop_end w cl c post /\
       st' = after st ([TLog (EvPreparing s (e - 1)); TLog EvConnected] ++ T ++ post)))).
Proof.
  unfold send_window. intros H.
  destruct (Z.leb_spec (Z.of_nat (length (email_list L))) s) as [Hle|Hlt].
  { rewrite bind_log in H. injection H as <- <-. left. auto. }
  right. split; [assumption|].
  rewrite bind_log in H. unfold bind in H at 1. unfold try_except in H.
  rewrite bind_check in H.
  destruct (smtp_connect w (sender_email L) pw) as [x|].
  { rewrite bind_log in H. injection H as <- <-. left.
    exists x. rewrite after_app. auto. }
  right. split; [reflexivity|].
  rewrite log_message_after, after_app in H. simpl app in H.
  unfold bind in H at 1.
  destruct (for_range _ _ _ _) as [cl s1] eqn:Hloop.
  apply for_range_spec in Hloop as (T & HT & ->).
  exists T, cl.
  destruct cl as [[]| |x].
  - unfold bind in H at 1. rewrite emit_after in H by exact I.
    rewrite bind_check in H. unfold loop_end.
    destruct (smtp_quit w) as [x|].
    + injection H as <- <-. exists [TQuit]. split; [assumption|]. split; [auto|].
      rewrite !after_app. reflexivity.
    + rewrite log_message_after in H. injection H as <- <-.
      exists [TQuit; TLog EvBatchFinished]. split; [assumption|]. split; [auto|].
      rewrite !after_app. reflexivity.
  - exfalso. clear -HT. remember Returned as c eqn:Hc.
    induction HT; try discriminate; auto.
  - injection H as <- <-. exists []. split; [assumption|]. split; [simpl; auto|].
    rewrite !after_app, app_nil_r. reflexivity.
Qed.

Lemma run_task_window w config st L s e st1 :
  read_window w config (fresh st) = (Normal (L, s, e), st1) ->
  run_task w config st = send_window w (dict_get config "password" PNone) L s e st1.
Proof.
  intros H. unfold run_task, send_emails_task, bind. rewrite H. reflexivity.
Qed.

(** The task from the window on, once the connection is made. *)
Lemma send_window_connected w pw L s e st :
  s < Z.of_nat (length (email_list L)) ->
  smtp_connect w (sender_email L) pw = None ->
  send_window w pw L s e st =
    match for_range (Z.to_nat (e - s)) s (send_one w L)
            (after st [TLog (EvPreparing s (e - 1)); TLog EvConnected]) with
    | (Normal _, s1) =>
        match smtp_quit w with
        | Some x => (Raised x, after s1 [TQuit])
        | None => (Normal tt, after s1 [TQuit; TLog EvBatchFinished])
        end
    | (Returned, s1) => (Returned, s1)
    | (Raised x, s1) => (Raised x, s1)
    end.
Proof.
  intros Hlt Hconn. unfold send_window.
  destruct (Z.leb_spec (Z.of_nat (length (email_list L))) s) as [?|_]; [lia|].
  rewrite bind_log. unfold bind at 1. unfold try_except.
  rewrite bind_check, Hconn, log_message_after, after_app. simpl app.
  unfold bind at 1.
  destruct (for_range _ _ _ _) as [[[]| |x] s1]; try reflexivity.
  unfold bind at 1. rewrite emit_after by exact I.
  rewrite bind_check. destruct (smtp_quit w); [reflexivity|].
  rewrite log_message_after, after_app. reflexivity.
Qed.

(** The shape of every run: messages, then the effects of the loop, then
    messages and the closing of the connection. *)
Lemma task_shape w config st c st' :
  send_emails_task w config st = (c, st') ->
  exists pre L i n T cl post,
    st' = after (cleared st) (pre ++ T ++ post) /\
    forallb is_log pre = true /\
    forallb is_quiet post = true /\
    loop_trace L i n T cl /\
    (T <> [] -> cursor (counter_file st) = Some i).
Proof.
  unfold send_emails_task. intros H. unfold bind in H.
  destruct (read_window w config st) as [cw st1] eqn:Hw.
  set (L0 := {| sender_email := PNone; template_subject := PNone;
                template_body := PNone; resume_filename := PNone;
                resume_path := None; email_list := [] |}).
  apply read_window_spec in Hw as (evs & -> & _ & Hc).
  destruct (logs_only evs) as [Hlog _].
  destruct cw as [[[L s] e]| |x].
  - destruct Hc as (stopper & _ & _ & Hcur & _).
    apply send_window_spec in H
      as [(_ & -> & ->) | (_ & [(x & _ & -> & ->) | (_ & T & cl & post & HT & Hend & ->)])].
    + exists (TLog <$> (evs ++ [EvAllSent])), L0, 0, O, [], (Normal tt), [].
      rewrite after_app, !app_nil_r.
      split; [rewrite fmap_app; reflexivity|].
      split; [apply logs_only|].
      repeat split; try constructor. intros []; reflexivity.
    + exists (TLog <$> (evs ++ [EvPreparing s (e - 1); EvConnectFailed x])),
        L0, 0, O, [], (Normal tt), [].
      rewrite after_app, !app_nil_r.
      split; [rewrite fmap_app; reflexivity|].
      split; [apply logs_only|].
      repeat split; try constructor. intros []; reflexivity.
    + exists (TLog <$> (evs ++ [EvPreparing s (e - 1); EvConnected])),
        L, s, (Z.to_nat (e - s)), T, cl, post.
      rewrite after_app.
      split; [rewrite fmap_app, <- !app_assoc; reflexivity|].
      split; [apply logs_only|].
      repeat split; auto.
      unfold loop_end in Hend. destruct cl as [[]| |y]; [|contradiction|].
      * destruct (smtp_quit w); destruct Hend as [_ ->]; reflexivity.
      * destruct Hend as [_ ->]; reflexivity.
  - injection H as <- <-.
    exists (TLog <$> evs), L0, 0, O, [], (Normal tt), [].
    rewrite !app_nil_r. repeat split; try constructor; auto.
    intros []; reflexivity.
  - injection H as <- <-.
    exists (TLog <$> evs), L0, 0, O, [], (Normal tt), [].
    rewrite !app_nil_r. repeat split; try constructor; auto.
    intros []; reflexivity.
Qed.

Lemma run_task_shape w config st c st' :
  run_task w config st = (c, st') ->
  exists pre L i n T cl post,
    st' = after (cleared (fresh st)) (pre ++ T ++ post) /\
    trace st' = pre ++ T ++ post /\
    forallb is_log pre = true /\
    forallb is_quiet post = true /\
    loop_trace L i n T cl /\
    (T <> [] -> cursor (counter_file st) = Some i).
Proof.
  intros H. apply task_shape in H as (pre & L & i & n & T & cl & post & -> & H).
  exists pre, L, i, n, T, cl, post. split; [reflexivity|]. split; [reflexivity|].
  exact H.
Qed.

(** ** What the loop sends and saves *)

Lemma iter_seg_attempted L i seg : iter_seg L i seg -> attempted seg = [i].
Proof.
  intros [W m HW _ | W m e HW _];
    destruct (warnings_quiet W HW) as (_ & _ & Ha & _);
    rewrite attempted_app, Ha; reflexivity.
Qed.

Lemma iter_seg_sent L i seg :
  iter_seg L i seg ->
  (sent_ok seg = [i] /\ forall cf, replay seg cf = counter_doc (i + 1)) \/
  (sent_ok seg = [] /\ forall cf, replay seg cf = cf).
Proof.
  intros [W m HW _ | W m e HW _];
    destruct (warnings_quiet W HW) as (Hr & Hs & _); [left | right];
    (split; [rewrite sent_ok_app, Hs; reflexivity |
             intros cf; rewrite replay_app, Hr; reflexivity]).
Qed.

(** The loop attempts the indices from [i] on, one after the other, and
    all [n] of them when it ends without raising. *)
Lemma loop_attempted L i n T c :
  loop_trace L i n T c ->
  exists k : nat,
    (k <= n)%nat /\ attempted T = seqZ i (Z.of_nat k) /\ (c = Normal tt -> k = n).
Proof.
  induction 1 as [i | i n e | i n seg T c Hseg HT (k & Hk & Ha & Hn)].
  - exists O. auto.
  - exists O. repeat split; [lia | discriminate].
  - exists (S k). split; [lia|]. split.
    + rewrite attempted_app, (iter_seg_attempted _ _ _ Hseg), Ha.
      rewrite Nat2Z.inj_succ, (seqZ_cons i) by lia.
      simpl. do 2 f_equal; lia.
    + intros Hc. f_equal. auto.
Qed.

Lemma loop_attempted_range L i n T c j :
  loop_trace L i n T c -> In j (attempted T) -> i <= j < i + Z.of_nat n.
Proof.
  intros HT Hj. apply loop_attempted in HT as (k & Hk & Ha & _).
  rewrite Ha in Hj. apply list_elem_of_In, elem_of_seqZ in Hj. lia.
Qed.

Lemma sent_ok_attempted T j : In j (sent_ok T) -> In j (attempted T).
Proof.
  induction T as [|t T IH]; simpl; [auto|].
  destruct t as [| i m [e|] | | |]; simpl; auto.
  intros [->|H]; auto.
Qed.

(** The counter file after the loop: written for the last success, or left
    as it was; and the last success is the largest. *)
Lemma loop_cursor L i n T c :
  loop_trace L i n T c ->
  match last_sent T with
  | Some j =>
      (forall cf, replay T cf = counter_doc (j + 1)) /\
      In j (sent_ok T) /\ (forall j', In j' (sent_ok T) -> j' <= j)
  | None => sent_ok T = [] /\ forall cf, replay T cf = cf
  end.
Proof.
  unfold last_sent.
  induction 1 as [i | i n e | i n seg T c Hseg HT IH]; simpl; auto.
  rewrite sent_ok_app.
  assert (Hge : forall j', In j' (sent_ok T) -> i + 1 <= j').
  { intros j' Hj'. apply sent_ok_attempted in Hj'.
    apply (loop_attempted_range _ _ _ _ _ _ HT) in Hj'. lia. }
  destruct (iter_seg_sent _ _ _ Hseg) as [[Hs Hr] | [Hs Hr]]; rewrite Hs; simpl.
  - destruct (last (sent_ok T)) as [j|] eqn:Hlast.
    + rewrite last_cons, Hlast. destruct IH as (Hrep & Hin & Hmax).
      split; [intros cf; rewrite replay_app; apply Hrep|].
      split; [right; assumption|].
      intros j' [<-|Hj']; [specialize (Hge _ Hin); lia | auto].
    + rewrite last_cons, Hlast. destruct IH as (Hnil & Hrep).
      rewrite Hnil.
      split; [intros cf; rewrite replay_app, Hrep; apply Hr|].
      split; [left; reflexivity|].
      intros j' [<-|[]]; lia.
  - destruct (last (sent_ok T)) as [j|] eqn:Hlast.
    + destruct IH as (Hrep & Hin & Hmax).
      split; [intros cf; rewrite replay_app; apply Hrep|]. auto.
    + destruct IH as (Hnil & Hrep). split; [assumption|].
      intros cf. rewrite replay_app, Hrep. apply Hr.
Qed.

Lemma quiet_facts post :
  forallb is_quiet post = true ->
  (forall cf, replay post cf = cf) /\ sent_ok post = [] /\ attempted post = [] /\
  send_outcomes post = [].
Proof.
  induction post as [|t post IH]; simpl; [intros _; repeat split; reflexivity|].
  intros H. apply andb_true_iff in H as [Ht Hp].
  destruct (IH Hp) as (IH1 & IH2 & IH3 & IH4).
  destruct t; try discriminate; repeat split; auto.
Qed.

(** The sends and saves of a run are those of its loop. *)
Lemma shape_projections pre T post :
  forallb is_log pre = true -> forallb is_quiet post = true ->
  (forall cf, replay (pre ++ T ++ post) cf = replay T cf) /\
  sent_ok (pre ++ T ++ post) = sent_ok T /\
  attempted (pre ++ T ++ post) = attempted T /\
  send_outcomes (pre ++ T ++ post) = send_outcomes T.
Proof.
  intros Hpre Hpost.
  destruct (logs_quiet pre Hpre) as (P1 & P2 & P3 & P4).
  destruct (quiet_facts post Hpost) as (Q1 & Q2 & Q3 & Q4).
  repeat split.
  - intros cf. rewrite !replay_app, P1, Q1. reflexivity.
  - rewrite !sent_ok_app, P2, Q2, app_nil_r. reflexivity.
  - rewrite !attempted_app, P3, Q3, app_nil_r. reflexivity.
  - rewrite !send_outcomes_app, P4, Q4, app_nil_r. reflexivity.
Qed.

Lemma In_sendmail_attempted T i m r : In (TSendmail i m r) T -> In i (attempted T).
Proof.
  induction T as [|t T IH]; simpl; [auto|].
  intros [->|H]; [left; reflexivity|].
  destruct t; simpl; auto.
Qed.

Lemma In_sendmail_sent_ok T i m : In (TSendmail i m None) T -> In i (sent_ok T).
Proof.
  induction T as [|t T IH]; simpl; [auto|].
  intros [->|H]; [left; reflexivity|].
  destruct t as [| i' m' [e|] | | |]; simpl; auto.
Qed.

Lemma sent_ok_In T j : In j (sent_ok T) -> exists m, In (TSendmail j m None) T.
Proof.
  induction T as [|t T IH]; simpl; [intros []|].
  destruct t as [| i m [e|] | | |]; simpl;
    try (intros H; destruct (IH H) as [m' Hm']; eauto).
  intros [->|H]; [eauto | destruct (IH H) as [m' Hm']; eauto].
Qed.

Lemma In_send_shape pre T post j m r :
  forallb is_log pre = true -> forallb is_quiet post = true ->
  In (TSendmail j m r) (pre ++ T ++ post) -> In (TSendmail j m r) T.
Proof.
  intros Hpre Hpost H.
  apply in_app_or in H as [H|H].
  - exfalso. rewrite forallb_forall in Hpre. apply Hpre in H. discriminate.
  - apply in_app_or in H as [H|H]; [assumption|].
    exfalso. rewrite forallb_forall in Hpost. apply Hpost in H. discriminate.
Qed.

Lemma cursor_counter_doc c : cursor (counter_doc c) = Some c.
Proof.
  unfold cursor, counter_doc, load_counter, py_get, dict_get.
  rewrite lookup_singleton_eq. reflexivity.
Qed.

(** ** Saving after each send *)

Lemma persisted_tail t T : persisted_at_once (t :: T) = true -> persisted_at_once T = true.
Proof.
  destruct t as [| i m [e|] | | |]; simpl; auto.
  destruct T as [|[[]| | | |] [|[] [|[] T]]]; try discriminate.
  intros H. repeat (apply andb_true_iff in H as [H ?]). assumption.
Qed.

Lemma persisted_logs pre T :
  forallb is_log pre = true -> persisted_at_once (pre ++ T) = persisted_at_once T.
Proof.
  induction pre as [|t pre IH]; simpl; [reflexivity|].
  intros H. apply andb_true_iff in H as [Ht Hp].
  destruct t; try discriminate. auto.
Qed.

Lemma persisted_seg L i seg T :
  iter_seg L i seg -> persisted_at_once (seg ++ T) = persisted_at_once T.
Proof.
  intros [W m HW _ | W m e HW _];
    destruct (warnings_quiet W HW) as (_ & _ & _ & _ & Hlog);
    rewrite <- app_assoc, (persisted_logs _ _ Hlog); simpl; [|reflexivity].
  rewrite String.eqb_refl, Z.eqb_refl. reflexivity.
Qed.

Lemma persisted_quiet post : forallb is_quiet post = true -> persisted_at_once post = true.
Proof.
  induction post as [|t post IH]; simpl; [reflexivity|].
  intros H. apply andb_true_iff in H as [Ht Hp].
  destruct t; try discriminate; auto.
Qed.

Lemma persisted_loop L i n T c post :
  loop_trace L i n T c -> forallb is_quiet post = true ->
  persisted_at_once (T ++ post) = true.
Proof.
  intros HT Hpost.
  induction HT as [i | i n e | i n seg T c Hseg HT IH]; simpl;
    try (apply persisted_quiet; assumption).
  rewrite <- app_assoc, (persisted_seg _ _ _ _ Hseg). exact IH.
Qed.

Lemma persisted_split T :
  persisted_at_once T = true ->
  forall T1 j m T2, T = T1 ++ TSendmail j m None :: T2 ->
  exists total T3,
    T2 = TLog (EvSuccess (msg_to m) (j + 1) total) :: TSave (j + 1) :: TSleep 5 :: T3.
Proof.
  intros HT T1. revert T HT.
  induction T1 as [|t T1 IH]; intros T HT j m T2 ->.
  - simpl in HT.
    destruct T2 as [|[[]| | | |] [|[] [|[] T3]]]; try discriminate.
    repeat (apply andb_true_iff in HT as [HT ?]).
    apply String.eqb_eq in HT. apply Z.eqb_eq in H2, H1, H0. subst.
    eauto.
  - simpl in HT. apply persisted_tail in HT. eapply IH; eauto.
Qed.

(** At every point of the trace at most one successful send has not been
    saved yet. *)
Lemma persisted_pending n : forall T,
  (length T <= n)%nat -> persisted_at_once T = true ->
  forall P Q, T = P ++ Q -> (length (sent_ok P) <= length (saved P) + 1)%nat.
Proof.
  induction n as [|n IH]; intros T Hlen HT P Q ->.
  { destruct P; simpl in *; [lia | lia]. }
  destruct P as [|t P]; [simpl; lia|].
  simpl in Hlen.
  destruct t as [ev | i m [e|] | c | d |].
  all: try (assert (H := IH (P ++ Q) ltac:(lia) (persisted_tail _ _ HT) P Q eq_refl);
            simpl; lia).
  destruct (persisted_split _ HT [] i m (P ++ Q) eq_refl) as (total & T3 & HPQ).
  destruct P as [|t1 P]; [simpl; lia|].
  destruct P as [|t2 P].
  { simpl in HPQ. injection HPQ as -> _. simpl. lia. }
  simpl in HPQ. injection HPQ as -> -> HPQ.
  apply persisted_tail, persisted_tail, persisted_tail in HT.
  simpl in Hlen.
  assert (H := IH (P ++ Q) ltac:(lia) HT P Q eq_refl).
  simpl. lia.
Qed.

Lemma seqZ_before i n l1 j l2 k :
  seqZ i n = l1 ++ j :: l2 -> In k l1 -> k < j.
Proof.
  intros Hs Hk.
  apply list_elem_of_In, list_elem_of_lookup in Hk as [p Hp].
  assert (Hj : seqZ i n !! length l1 = Some j).
  { rewrite Hs. rewrite lookup_app_r by lia.
    replace (length l1 - length l1)%nat with O by lia. reflexivity. }
  assert (Hk : seqZ i n !! p = Some k).
  { rewrite Hs. rewrite lookup_app_l by (eapply lookup_lt_Some; eauto). exact Hp. }
  apply lookup_lt_Some in Hp.
  apply lookup_seqZ in Hj as [-> _]. apply lookup_seqZ in Hk as [-> _]. lia.
Qed.

Lemma seqZ_after i n l1 j l2 k :
  seqZ i n = l1 ++ j :: l2 -> In k l2 -> j < k.
Proof.
  intros Hs Hk.
  apply list_elem_of_In, list_elem_of_lookup in Hk as [p Hp].
  assert (Hj : seqZ i n !! length l1 = Some j).
  { rewrite Hs. rewrite lookup_app_r by lia.
    replace (length l1 - length l1)%nat with O by lia. reflexivity. }
  assert (Hk : seqZ i n !! (length l1 + S p)%nat = Some k).
  { rewrite Hs. rewrite lookup_app_r by lia.
    replace (length l1 + S p - length l1)%nat with (S p) by lia. exact Hp. }
  apply lookup_seqZ in Hj as [-> _]. apply lookup_seqZ in Hk as [-> _]. lia.
Qed.

(** A send is met in the trace of a run only when the run has computed
    its window, has recipients left and is connected. *)
Lemma run_reaches_loop w config st j m r :
  In (TSendmail j m r) (trace (snd (run_task w config st))) ->
  exists L s e st1,
    read_window w config (fresh st) = (Normal (L, s, e), st1) /\
    s < Z.of_nat (length (email_list L)) /\
    smtp_connect w (sender_email L) (dict_get config "password" PNone) = None /\
    forallb is_log (trace st1) = true.
Proof.
  intros Hin.
  destruct (read_window w config (fresh st)) as [cw st1] eqn:Hw.
  pose proof Hw as Hspec.
  apply read_window_spec in Hspec as (evs & Hst1 & _ & _).
  destruct (logs_only evs) as [Hlog _].
  assert (Hlog1 : forallb is_log (trace st1) = true) by (rewrite Hst1; exact Hlog).
  assert (Hno : forall T, forallb is_log T = true -> ~ In (TSendmail j m r) T).
  { intros T HT Hc. rewrite forallb_forall in HT. apply HT in Hc. discriminate. }
  destruct cw as [[[L s] e]| |x].
  - rewrite (run_task_window _ _ _ _ _ _ _ Hw) in Hin.
    destruct (send_window w (dict_get config "password" PNone) L s e st1)
      as [c st'] eqn:Hs.
    apply send_window_spec in Hs
      as [(_ & _ & ->) | (Hlt & [(x & _ & _ & ->) | (Hconn & _)])].
    + exfalso. simpl in Hin. apply in_app_or in Hin as [Hin|Hin].
      * exact (Hno _ Hlog1 Hin).
      * destruct Hin as [Hin|[]]. discriminate.
    + exfalso. simpl in Hin. apply in_app_or in Hin as [Hin|Hin].
      * exact (Hno _ Hlog1 Hin).
      * destruct Hin as [Hin|[Hin|[]]]; discriminate.
    + exists L, s, e, st1. auto.
  - exfalso. unfold run_task, send_emails_task, bind in Hin. rewrite Hw in Hin.
    exact (Hno _ Hlog1 Hin).
  - exfalso. unfold run_task, send_emails_task, bind in Hin. rewrite Hw in Hin.
    exact (Hno _ Hlog1 Hin).
Qed.

(** The loop, cut after the iteration of index [j] whose send succeeds,
    ends in a state of the loop whose trace ends with the send, its
    message, the save and the pause, and whose counter file is the
    document of [j + 1]. *)
Lemma for_range_reaches w L j m : forall n i st c st',
  for_range n i (send_one w L) st = (c, st') ->
  In (TSendmail j m None) (trace st') -> ~ In (TSendmail j m None) (trace st) ->
  exists st_j P Q,
    for_range (Z.to_nat (j + 1 - i)) i (send_one w L) st = (Normal tt, st_j) /\
    trace st_j = P ++ [TSendmail j m None;
                       TLog (EvSuccess (msg_to m) (j + 1) (length (email_list L)));
                       TSave (j + 1); TSleep 5] /\
    trace st' = trace st_j ++ Q /\
    counter_file st_j = counter_doc (j + 1).
Proof.
  induction n as [|n IH]; intros i st c st' H Hin Hnot.
  { simpl in H. unfold ret in H. injection H as _ <-. contradiction. }
  simpl in H. unfold bind in H.
  destruct (send_one w L i st) as [c1 st1] eqn:E.
  pose proof E as E'.
  apply send_one_spec in E' as [(x & -> & ->) | (-> & seg & Hseg & ->)].
  { injection H as _ <-. contradiction. }
  pose proof H as Hrest. apply for_range_spec in Hrest as (T & HT & ->).
  assert (HinT : forall k m' r', In (TSendmail k m' r') T -> i + 1 <= k).
  { intros k m' r' Hk. apply In_sendmail_attempted in Hk.
    apply (loop_attempted_range _ _ _ _ _ _ HT) in Hk. lia. }
  destruct (Z.eq_dec j i) as [->|Hji].
  - (* the send of this iteration *)
    assert (Hs : In (TSendmail i m None) seg).
    { simpl in Hin. apply in_app_or in Hin as [Hin|Hin].
      - apply in_app_or in Hin as [Hin|Hin]; [contradiction | exact Hin].
      - apply HinT in Hin. lia. }
    destruct Hseg as [W m0 HW Hidx | W m0 x HW Hidx];
      apply in_app_or in Hs as [Hs|Hs];
      try (rewrite forallb_forall in HW; apply HW in Hs; discriminate).
    + simpl in Hs. destruct Hs as [Hs|[Hs|[Hs|[Hs|[]]]]]; try discriminate.
      injection Hs as ->.
      eexists _, (trace st ++ W), T.
      split.
      { replace (Z.to_nat (i + 1 - i)) with 1%nat by lia.
        simpl. unfold bind. rewrite E. reflexivity. }
      split; [simpl; rewrite app_assoc; reflexivity|].
      split; [reflexivity|].
      simpl. rewrite replay_app. reflexivity.
    + simpl in Hs. destruct Hs as [Hs|[Hs|[]]]; discriminate.
  - (* a later iteration *)
    assert (Hnot1 : ~ In (TSendmail j m None) (trace (after st seg))).
    { simpl. intros Hc. apply in_app_or in Hc as [Hc|Hc]; [contradiction|].
      apply In_sendmail_attempted in Hc.
      rewrite (iter_seg_attempted _ _ _ Hseg) in Hc. destruct Hc as [Hc|[]]. lia. }
    assert (Hj : i + 1 <= j).
    { simpl in Hin. apply in_app_or in Hin as [Hin|Hin]; [|eapply HinT; eauto].
      exfalso. apply Hnot1. exact Hin. }
    destruct (IH _ _ _ _ H Hin Hnot1) as (st_j & P & Q & Hfor & Htr & Hq & Hcf).
    exists st_j, P, Q. split; [|auto].
    replace (Z.to_nat (j + 1 - i)) with (S (Z.to_nat (j + 1 - (i + 1)))) by lia.
    simpl. unfold bind. rewrite E. exact Hfor.
Qed.

(** An element that occurs once splits a list in one way. *)
Lemma split_unique {A : Type} (x : A) : forall l1 l2 l1' l2',
  l1 ++ x :: l2 = l1' ++ x :: l2' -> ~ In x l1 -> ~ In x l1' ->
  l1 = l1' /\ l2 = l2'.
Proof.
  induction l1 as [|a l1 IH]; intros l2 [|a' l1'] l2' H H1 H2; simpl in *.
  - injection H as ->. auto.
  - injection H as -> _. exfalso. apply H2. auto.
  - injection H as -> _. exfalso. apply H1. auto.
  - injection H as -> H. destruct (IH _ _ _ H) as [-> ->]; auto.
Qed.

(** C9. For every successful send at index [j] of a run, the next effects
    of the run are the message of success, the save of [j + 1] and the
    pause of five seconds, in this order: the cursor is written right after
    the send, before the pause and before any other send.  The run has
    then gone through its loop up to the end of the iteration of index
    [j], and the state it is in at that point has a counter file that is
    the document of [j + 1] and nothing else, whatever the file held
    before; the cursor that the whole run leaves is at least [j + 1].  The
    sends before are at lower indices and the sends after at higher ones;
    and at every point of the run at most one successful send is not saved
    yet. *)
Theorem C9_cursor_saved_after_each_send w config st T1 j m T2 :
  trace (snd (run_task w config st)) = T1 ++ TSendmail j m None :: T2 ->
  exists total T3,
    T2 = TLog (EvSuccess (msg_to m) (j + 1) total) :: TSave (j + 1) :: TSleep 5 :: T3 /\
    (exists L s e st1 st_j,
       read_window w config (fresh st) = (Normal (L, s, e), st1) /\
       for_range (Z.to_nat (j + 1 - s)) s (send_one w L)
         (after st1 [TLog (EvPreparing s (e - 1)); TLog EvConnected])
       = (Normal tt, st_j) /\
       trace st_j = T1 ++ [TSendmail j m None;
                           TLog (EvSuccess (msg_to m) (j + 1) total);
                           TSave (j + 1); TSleep 5] /\
       counter_file st_j = counter_doc (j + 1)) /\
    (exists k, cursor (counter_file (snd (run_task w config st))) = Some k /\ j + 1 <= k) /\
    (forall cf,
       replay (T1 ++ [TSendmail j m None;
                      TLog (EvSuccess (msg_to m) (j + 1) total); TSave (j + 1)]) cf
       = counter_doc (j + 1)) /\
    cursor (counter_doc (j + 1)) = Some (j + 1) /\
    (forall k, In k (attempted T1) -> k < j) /\
    (forall k, In k (attempted T3) -> j < k) /\
    (forall P Q, trace (snd (run_task w config st)) = P ++ Q ->
       (length (sent_ok P) <= length (saved P) + 1)%nat).
Proof.
  intros Htr.
  assert (Hin : In (TSendmail j m None) (trace (snd (run_task w config st))))
    by (rewrite Htr; apply in_elt).
  destruct (run_reaches_loop _ _ _ _ _ _ Hin)
    as (L & s & e & st1 & Hw & Hlt & Hconn & Hlog1).
  pose proof (run_task_window _ _ _ _ _ _ _ Hw) as Hsw.
  rewrite (send_window_connected _ _ _ _ _ _ Hlt Hconn) in Hsw.
  destruct (for_range (Z.to_nat (e - s)) s (send_one w L)
              (after st1 [TLog (EvPreparing s (e - 1)); TLog EvConnected]))
    as [cl s1] eqn:Hloop.
  assert (Hfin : exists post,
    trace (snd (run_task w config st)) = trace s1 ++ post /\
    forallb is_quiet post = true).
  { rewrite Hsw. destruct cl as [[]| |x]; [destruct (smtp_quit w)|..].
    - exists [TQuit]. auto.
    - exists [TQuit; TLog EvBatchFinished]. auto.
    - exists []. rewrite app_nil_r. auto.
    - exists []. rewrite app_nil_r. auto. }
  destruct Hfin as (post & Hfin & Hpost). clear Hsw.
  assert (Hin1 : In (TSendmail j m None) (trace s1)).
  { rewrite Hfin in Hin. apply in_app_or in Hin as [Hin|Hin]; [exact Hin|].
    exfalso. rewrite forallb_forall in Hpost. apply Hpost in Hin. discriminate. }
  assert (Hnot0 : ~ In (TSendmail j m None)
                    (trace (after st1 [TLog (EvPreparing s (e - 1)); TLog EvConnected]))).
  { simpl. intros Hc. apply in_app_or in Hc as [Hc|Hc].
    - rewrite forallb_forall in Hlog1. apply Hlog1 in Hc. discriminate.
    - destruct Hc as [Hc|[Hc|[]]]; discriminate. }
  destruct (for_range_reaches _ _ _ _ _ _ _ _ _ Hloop Hin1 Hnot0)
    as (st_j & P & Q & Hfor & HtrJ & HQ & Hcf).
  destruct (run_task w config st) as [c st'] eqn:Hrun. simpl in Htr, Hfin, Hin |- *.
  pose proof Hrun as Hshape0.
  apply run_task_shape in Hshape0
    as (pre & L' & i & n & T & cl' & post' & Hst' & Hshape & Hpre & Hpost' & HT & _).
  destruct (shape_projections pre T post' Hpre Hpost') as (Hrep & Hsent & Ha & _).
  destruct (loop_attempted _ _ _ _ _ HT) as (k0 & _ & Hseq & _).
  assert (Hbefore : forall X Y, trace st' = X ++ TSendmail j m None :: Y ->
            (forall k, In k (attempted X) -> k < j) /\
            (forall k, In k (attempted Y) -> j < k)).
  { intros X Y HXY.
    assert (Hatt : attempted (trace st') = attempted X ++ j :: attempted Y)
      by (rewrite HXY, attempted_app; reflexivity).
    rewrite Hshape, Ha, Hseq in Hatt.
    split; intros k Hk; [eapply seqZ_before | eapply seqZ_after]; eauto. }
  assert (Hnotin : forall X Y, trace st' = X ++ TSendmail j m None :: Y ->
            ~ In (TSendmail j m None) X).
  { intros X Y HXY Hc. destruct (Hbefore _ _ HXY) as [Hb _].
    apply In_sendmail_attempted in Hc. apply Hb in Hc. lia. }
  assert (Htr2 : trace st' =
    P ++ TSendmail j m None
      :: (TLog (EvSuccess (msg_to m) (j + 1) (length (email_list L)))
          :: TSave (j + 1) :: TSleep 5 :: Q ++ post)).
  { rewrite Hfin, HQ, HtrJ, <- !app_assoc. reflexivity. }
  assert (Heq : T1 ++ TSendmail j m None :: T2 =
    P ++ TSendmail j m None
      :: (TLog (EvSuccess (msg_to m) (j + 1) (length (email_list L)))
          :: TSave (j + 1) :: TSleep 5 :: Q ++ post)) by (rewrite <- Htr; exact Htr2).
  destruct (split_unique _ _ _ _ _ Heq (Hnotin _ _ Htr) (Hnotin _ _ Htr2)) as [-> ->].
  exists (length (email_list L)), (Q ++ post).
  split; [reflexivity|].
  split; [exists L, s, e, st1, st_j; auto|].
  split.
  { rewrite Hst'. simpl. rewrite Hrep.
    pose proof (loop_cursor _ _ _ _ _ HT) as Hlc.
    assert (HjT : In j (sent_ok T)).
    { rewrite <- Hsent, <- Hshape, Htr. rewrite sent_ok_app. apply in_or_app.
      right. left. reflexivity. }
    destruct (last_sent T) as [j'|].
    - destruct Hlc as (Hr & _ & Hmax). rewrite Hr, cursor_counter_doc.
      exists (j' + 1). split; [reflexivity|]. apply Hmax in HjT. lia.
    - destruct Hlc as (Hnil & _). rewrite Hnil in HjT. destruct HjT. }
  split; [intros cf; rewrite replay_app; reflexivity|].
  split; [apply cursor_counter_doc|].
  destruct (Hbefore _ _ Htr) as [Hb1 Hb2].
  split; [exact Hb1|].
  split.
  { intros k Hk. apply Hb2. simpl. exact Hk. }
  assert (Hp : persisted_at_once (trace st') = true).
  { rewrite Hshape, (persisted_logs _ _ Hpre). eapply persisted_loop; eauto. }
  intros P0 Q0 HPQ. eapply persisted_pending; eauto.
Qed.

(** The sample campaign with the first recipient refused: the send at index 1
    succeeds and is followed by its message, the save of 2 and the pause. *)
Lemma C9_witness :
  trace (snd (run_task (sample_world (Z.eqb 0)) sample_config (sample_state None)))
  = [TLog EvStarted; TLog (EvLoaded 3 (PStr "list.csv")); TLog (EvPreparing 0 1);
     TLog EvConnected;
     TSendmail 0 (sample_message "ann.lee@x.com") (Some (OtherError "SMTPRecipientsRefused"));
     TLog (EvSendError "ann.lee@x.com" (OtherError "SMTPRecipientsRefused"))]
    ++ TSendmail 1 (sample_message "bob@y.org") None
    :: [TLog (EvSuccess "bob@y.org" 2 3); TSave 2; TSleep 5; TQuit; TLog EvBatchFinished]
  /\ exists total T3,
       [TLog (EvSuccess "bob@y.org" 2 3); TSave 2; TSleep 5; TQuit; TLog EvBatchFinished]
       = TLog (EvSuccess "bob@y.org" (1 + 1) total) :: TSave (1 + 1) :: TSleep 5 :: T3.
Proof.
  assert (H : trace (snd (run_task (sample_world (Z.eqb 0)) sample_config (sample_state None)))
    = [TLog EvStarted; TLog (EvLoaded 3 (PStr "list.csv")); TLog (EvPreparing 0 1);
       TLog EvConnected;
       TSendmail 0 (sample_message "ann.lee@x.com") (Some (OtherError "SMTPRecipientsRefused"));
       TLog (EvSendError "ann.lee@x.com" (OtherError "SMTPRecipientsRefused"))]
      ++ TSendmail 1 (sample_message "bob@y.org") None
      :: [TLog (EvSuccess "bob@y.org" 2 3); TSave 2; TSleep 5; TQuit; TLog EvBatchFinished])
    by (vm_compute; reflexivity).
  split; [exact H|].
  destruct (C9_cursor_saved_after_each_send _ _ _ _ _ _ _ H) as (total & T3 & H3 & _).
  exists total, T3. exact H3.
Defined.

(** ** The cursor after a run and across runs *)

(** A run from a cursor of at least [b] sends only at indices from [b] on
    and leaves a cursor of at least [b]. *)
Lemma task_cursor_monotone w config st c st' b k :
  send_emails_task w config st = (c, st') ->
  cursor (counter_file st) = Some k -> b <= k ->
  (exists k', cursor (counter_file st') = Some k' /\ b <= k') /\
  (forall j m r, In (TSendmail j m r) (trace st') ->
     In (TSendmail j m r) (trace st) \/ b <= j).
Proof.
  intros Hrun Hcur Hb.
  apply task_shape in Hrun
    as (pre & L & i & n & T & cl & post & -> & Hpre & Hpost & HT & Hi).
  destruct (shape_projections pre T post Hpre Hpost) as (Hrep & _).
  assert (Hik : T <> [] -> i = k).
  { intros HT0. specialize (Hi HT0). simpl in Hi. congruence. }
  split.
  - simpl. rewrite Hrep.
    pose proof (loop_cursor _ _ _ _ _ HT) as Hlc.
    destruct (last_sent T) as [j|].
    + destruct Hlc as (Hr & Hin & _). rewrite Hr, cursor_counter_doc.
      exists (j + 1). split; [reflexivity|].
      assert (T <> []) by (intros ->; destruct Hin).
      apply sent_ok_attempted in Hin.
      apply (loop_attempted_range _ _ _ _ _ _ HT) in Hin. specialize (Hik H). lia.
    + destruct Hlc as (_ & Hr). rewrite Hr. eauto.
  - intros j m r Hj. simpl in Hj.
    apply in_app_or in Hj as [Hj|Hj]; [left; exact Hj|right].
    apply (In_send_shape _ _ _ _ _ _ Hpre Hpost) in Hj.
    assert (T <> []) by (intros ->; destruct Hj).
    apply In_sendmail_attempted in Hj.
    apply (loop_attempted_range _ _ _ _ _ _ HT) in Hj. specialize (Hik H). lia.
Qed.

Lemma run_all_sends runs : forall st b k,
  cursor (counter_file st) = Some k -> b <= k ->
  forall j m r, In (TSendmail j m r) (trace (run_all runs st)) ->
    In (TSendmail j m r) (trace st) \/ b <= j.
Proof.
  induction runs as [|[w config] runs IH]; intros st b k Hcur Hb j m r Hj; simpl in Hj.
  - left. exact Hj.
  - destruct (send_emails_task w config st) as [c st'] eqn:Hrun. simpl in Hj.
    destruct (task_cursor_monotone _ _ _ _ _ _ _ Hrun Hcur Hb) as [(k' & Hk' & Hbk') Hsends].
    destruct (IH _ _ _ Hk' Hbk' _ _ _ Hj) as [H|H]; [|right; exact H].
    apply Hsends in H. exact H.
Qed.

(** C2. After a run the counter file holds [j + 1] for the last and largest
    index [j] whose send succeeded, and it is left as it was when no send
    succeeded.  In particular, when the send at [i] fails and the send at
    [i + 1] succeeds, [i + 2] is saved, the cursor after the run is at least
    [i + 2], and no later run, whatever its surroundings and its argument,
    sends at an index below [i + 2]: recipient [i] is skipped for good, as
    long as only runs of the task write the counter file. *)
Theorem C2_cursor_is_last_success_plus_one w config st :
  let st' := snd (run_task w config st) in
  match last_sent (trace st') with
  | Some j =>
      (exists m, In (TSendmail j m None) (trace st')) /\
      (forall j' m, In (TSendmail j' m None) (trace st') -> j' <= j) /\
      counter_file st' = counter_doc (j + 1) /\
      cursor (counter_file st') = Some (j + 1)
  | None =>
      (forall j m, ~ In (TSendmail j m None) (trace st')) /\
      counter_file st' = counter_file st
  end /\
  forall i m x m',
    In (TSendmail i m (Some x)) (trace st') ->
    In (TSendmail (i + 1) m' None) (trace st') ->
    In (TSave (i + 2)) (trace st') /\
    (exists k, cursor (counter_file st') = Some k /\ i + 2 <= k) /\
    forall runs j m'' r,
      In (TSendmail j m'' r) (trace (run_all runs (fresh st'))) -> i + 2 <= j.
Proof.
  intros st'. subst st'.
  destruct (run_task w config st) as [c st'] eqn:Hrun. simpl.
  pose proof Hrun as Hshape.
  apply run_task_shape in Hshape
    as (pre & L & i0 & n & T & cl & post & Hst & Htr & Hpre & Hpost & HT & _).
  destruct (shape_projections pre T post Hpre Hpost) as (Hrep & Hsent & _).
  pose proof (loop_cursor _ _ _ _ _ HT) as Hlc.
  assert (Hcf : counter_file st' = replay T (counter_file st)).
  { rewrite Hst. simpl. apply Hrep. }
  assert (Hmain :
    match last_sent (trace st') with
    | Some j =>
        (exists m, In (TSendmail j m None) (trace st')) /\
        (forall j' m, In (TSendmail j' m None) (trace st') -> j' <= j) /\
        counter_file st' = counter_doc (j + 1) /\
        cursor (counter_file st') = Some (j + 1)
    | None =>
        (forall j m, ~ In (TSendmail j m None) (trace st')) /\
        counter_file st' = counter_file st
    end).
  { unfold last_sent in *. rewrite Htr, Hsent.
    destruct (last (sent_ok T)) as [j|].
    - destruct Hlc as (Hr & Hin & Hmax).
      split.
      { destruct (sent_ok_In _ _ Hin) as [m Hm]. exists m.
        apply in_or_app. right. apply in_or_app. left. exact Hm. }
      split.
      { intros j' m Hj'. apply In_sendmail_sent_ok in Hj'.
        rewrite Hsent in Hj'. auto. }
      rewrite Hcf, Hr. split; [reflexivity | apply cursor_counter_doc].
    - destruct Hlc as (Hnil & Hr). split.
      + intros j m Hj. apply In_sendmail_sent_ok in Hj.
        rewrite Hsent, Hnil in Hj. destruct Hj.
      + rewrite Hcf. apply Hr. }
  split; [exact Hmain|].
  intros i m x m' Hfail Hok.
  assert (Hp : persisted_at_once (trace st') = true).
  { rewrite Htr, (persisted_logs _ _ Hpre). eapply persisted_loop; eauto. }
  assert (Hsave : In (TSave (i + 2)) (trace st')).
  { destruct (in_split _ _ Hok) as (T1 & T2 & Hsplit).
    destruct (persisted_split _ Hp _ _ _ _ Hsplit) as (total & T3 & ->).
    rewrite Hsplit. apply in_or_app. right. right. right. left.
    f_equal. lia. }
  assert (Hk : exists k, cursor (counter_file st') = Some k /\ i + 2 <= k).
  { destruct (last_sent (trace st')) as [j|].
    - destruct Hmain as (_ & Hmax & _ & Hcur). exists (j + 1).
      split; [exact Hcur|]. specialize (Hmax _ _ Hok). lia.
    - destruct Hmain as (Hno & _). destruct (Hno _ _ Hok). }
  split; [exact Hsave|]. split; [exact Hk|].
  intros runs j m'' r Hj. destruct Hk as (k & Hk & Hik).
  destruct (run_all_sends runs (fresh st') (i + 2) k Hk Hik _ _ _ Hj) as [[]|H].
  exact H.
Qed.

(** The sample campaign with the first recipient refused: 0 fails, 1
    succeeds, 2 is saved and no later run sends below 2. *)
Lemma C2_witness :
  let st' := snd (run_task (sample_world (Z.eqb 0)) sample_config (sample_state None)) in
  In (TSendmail 0 (sample_message "ann.lee@x.com")
        (Some (OtherError "SMTPRecipientsRefused"))) (trace st') /\
  In (TSendmail (0 + 1) (sample_message "bob@y.org") None) (trace st') /\
  In (TSave (0 + 2)) (trace st') /\
  cursor (counter_file st') = Some 2 /\
  forall runs j m r,
    In (TSendmail j m r) (trace (run_all runs (fresh st'))) -> 0 + 2 <= j.
Proof.
  intros st'.
  assert (Hfail : In (TSendmail 0 (sample_message "ann.lee@x.com")
                        (Some (OtherError "SMTPRecipientsRefused"))) (trace st'))
    by (vm_compute; tauto).
  assert (Hok : In (TSendmail (0 + 1) (sample_message "bob@y.org") None) (trace st'))
    by (vm_compute; tauto).
  destruct (C2_cursor_is_last_success_plus_one
              (sample_world (Z.eqb 0)) sample_config (sample_state None))
    as [_ H].
  destruct (H _ _ _ _ Hfail Hok) as (Hsave & _ & Hruns).
  split; [exact Hfail|]. split; [exact Hok|]. split; [exact Hsave|].
  split; [vm_compute; reflexivity | exact Hruns].
Defined.

(** ** What a run reads of the state *)

Create HintDb frame.

Lemma counter_only_ret {A} (a : A) : counter_only (ret a).
Proof. intros st st2 H. auto. Qed.

Lemma counter_only_return {A} : counter_only (@py_return A).
Proof. intros st st2 H. auto. Qed.

Lemma counter_only_lift {A} (r : result A) : counter_only (lift r).
Proof. intros st st2 H. destruct r; auto. Qed.

Lemma counter_only_log ev : counter_only (log_message ev).
Proof. intros st st2 H. auto. Qed.

Lemma counter_only_clear : counter_only clear_logs.
Proof. intros st st2 H. auto. Qed.

Lemma counter_only_read : counter_only read_counter_file.
Proof. intros st st2 H. simpl. split; [f_equal|]; exact H. Qed.

Lemma counter_only_bind {A B} (m : M A) (k : A -> M B) :
  counter_only m -> (forall a, counter_only (k a)) -> counter_only (bind m k).
Proof.
  intros Hm Hk st st2 H. unfold bind.
  destruct (Hm st st2 H) as [Hc Hs].
  destruct (m st) as [c1 s1], (m st2) as [c2 s2]. simpl in *. subst c2.
  destruct c1 as [a| |x]; [apply Hk; exact Hs | auto | auto].
Qed.

Lemma counter_only_try {A} (m : M A) (h : exn -> M A) :
  counter_only m -> (forall x, counter_only (h x)) -> counter_only (try_except m h).
Proof.
  intros Hm Hh st st2 H. unfold try_except.
  destruct (Hm st st2 H) as [Hc Hs].
  destruct (m st) as [c1 s1], (m st2) as [c2 s2]. simpl in *. subst c2.
  destruct c1 as [a| |x]; [auto | auto | apply Hh; exact Hs].
Qed.

#[local] Hint Resolve counter_only_ret counter_only_return counter_only_lift
  counter_only_log counter_only_clear counter_only_read : frame.

Ltac frame_step :=
  match goal with
  | |- counter_only (bind _ _) => apply counter_only_bind; [|intros ?]
  | |- counter_only (try_except _ _) => apply counter_only_try; [|intros ?]
  | |- counter_only (if ?b then _ else _) => destruct b
  | |- counter_only (match ?o with Some _ => _ | None => _ end) => destruct o
  | |- counter_only _ => solve [auto with frame]
  end.

Lemma counter_only_read_window w config : counter_only (read_window w config).
Proof. unfold read_window, load_email_list. repeat frame_step. Qed.

(** ** The window *)

Lemma In_trace_after st T t : In t (trace (after (cleared (fresh st)) T)) <-> In t T.
Proof. reflexivity. Qed.

(** C7. In a run that reaches the computation of the window, with the
    cursor [s] read from the counter file and the batch limit [stopper] of
    the configuration, the end of the window is
    [min (s + stopper) (len email_list)]; hence [e - s <= stopper] and
    [e <= len email_list]; and every send of the run is at an index of
    [[s, e)]. *)
Theorem C7_window_bound w config st L s e st1 :
  read_window w config (fresh st) = (Normal (L, s, e), st1) ->
  exists stopper,
    py_int w (dict_get config "stopper" (PInt 100)) = Ok stopper /\
    cursor (counter_file st) = Some s /\
    e = Z.min (s + stopper) (Z.of_nat (length (email_list L))) /\
    e - s <= stopper /\
    e <= Z.of_nat (length (email_list L)) /\
    forall j m r, In (TSendmail j m r) (trace (snd (run_task w config st))) -> s <= j < e.
Proof.
  intros Hw.
  rewrite (run_task_window _ _ _ _ _ _ _ Hw).
  apply read_window_spec in Hw
    as (evs & -> & _ & stopper & Hstop & _ & Hcur & -> & _).
  exists stopper. unfold end_counter.
  split; [exact Hstop|]. split; [exact Hcur|]. split; [reflexivity|].
  split; [lia|]. split; [lia|].
  intros j m r.
  destruct (send_window _ _ _ _ _ _) as [c st'] eqn:Hs. simpl.
  destruct (logs_only evs) as [Hlog _].
  apply send_window_spec in Hs
    as [(_ & _ & ->) | (_ & [(x & _ & _ & ->) | (_ & T & cl & post & HT & Hend & ->)])];
    rewrite after_app; intros Hj; apply In_trace_after in Hj.
  - exfalso. apply in_app_or in Hj as [Hj|[Hj|[]]]; [|discriminate].
    rewrite forallb_forall in Hlog. apply Hlog in Hj. discriminate.
  - exfalso. apply in_app_or in Hj as [Hj|[Hj|[Hj|[]]]]; try discriminate.
    rewrite forallb_forall in Hlog. apply Hlog in Hj. discriminate.
  - assert (Hpost : forallb is_quiet post = true).
    { unfold loop_end in Hend. destruct cl as [[]| |y]; [|contradiction|].
      - destruct (smtp_quit w); destruct Hend as [_ ->]; reflexivity.
      - destruct Hend as [_ ->]; reflexivity. }
    rewrite app_assoc in Hj.
    apply In_send_shape in Hj; [|rewrite forallb_app, Hlog; reflexivity|exact Hpost].
    apply In_sendmail_attempted in Hj.
    apply (loop_attempted_range _ _ _ _ _ _ HT) in Hj. lia.
Qed.

(** The sample campaign from cursor 2 with batch limit 2: the window ends
    at [min (2 + 2) 3 = 3]. *)
Lemma C7_witness :
  exists L st1,
    read_window (sample_world (Z.eqb 0)) sample_config (fresh (sample_state (counter_doc 2)))
      = (Normal (L, 2, 3), st1) /\
    exists stopper,
      py_int (sample_world (Z.eqb 0)) (dict_get sample_config "stopper" (PInt 100)) = Ok stopper /\
      3 = Z.min (2 + stopper) (Z.of_nat (length (email_list L))) /\
      3 - 2 <= stopper /\
      3 <= Z.of_nat (length (email_list L)).
Proof.
  eexists _, _.
  assert (H : read_window (sample_world (Z.eqb 0)) sample_config
                (fresh (sample_state (counter_doc 2))) = _) by (vm_compute; reflexivity).
  split; [exact H|].
  destruct (C7_window_bound _ _ _ _ _ _ _ H) as (stopper & H1 & _ & H2 & H3 & H4 & _).
  exists stopper. auto.
Defined.

(** ** An exhausted campaign *)

Lemma exhausted_run w config st L s e st1 :
  read_window w config (fresh st) = (Normal (L, s, e), st1) ->
  Z.of_nat (length (email_list L)) <= s ->
  fst (run_task w config st) = Returned /\
  trace (snd (run_task w config st)) =
    TLog <$> [EvStarted;
              EvLoaded (length (email_list L)) (dict_get config "default_file" PNone);
              EvAllSent] /\
  LOGS (snd (run_task w config st)) =
    [EvStarted; EvLoaded (length (email_list L)) (dict_get config "default_file" PNone);
     EvAllSent] /\
  counter_file (snd (run_task w config st)) = counter_file st.
Proof.
  intros Hw Hlen.
  rewrite (run_task_window _ _ _ _ _ _ _ Hw).
  apply read_window_spec in Hw
    as (evs & -> & _ & stopper & _ & _ & _ & _ & _ & _ & ->).
  destruct (send_window _ _ _ _ _ _) as [c st'] eqn:Hs. simpl fst; simpl snd.
  apply send_window_spec in Hs as [(_ & -> & ->) | (Hlt & _)]; [|lia].
  repeat split.
Qed.

(** C8. When the cursor is at or beyond the end of the recipient list at
    the start of a run that reaches the window, the run sends nothing,
    logs the message that all emails were sent exactly once, leaves the
    counter file as it was and returns; a second run from the state it
    leaves does the same and leaves the same logs and counter file. *)
Theorem C8_exhausted_campaign_is_idempotent w config st L s e st1 :
  read_window w config (fresh st) = (Normal (L, s, e), st1) ->
  Z.of_nat (length (email_list L)) <= s ->
  let st' := snd (run_task w config st) in
  let st'' := snd (run_task w config st') in
  fst (run_task w config st) = Returned /\
  attempted (trace st') = [] /\
  List.filter is_all_sent (LOGS st') = [EvAllSent] /\
  counter_file st' = counter_file st /\
  fst (run_task w config st') = Returned /\
  attempted (trace st'') = [] /\
  LOGS st'' = LOGS st' /\
  counter_file st'' = counter_file st'.
Proof.
  intros Hw Hlen st' st''.
  destruct (exhausted_run _ _ _ _ _ _ _ Hw Hlen) as (Hc & Htr & Hlogs & Hcf).
  fold st' in Htr, Hlogs, Hcf.
  assert (Hw2 : exists st2, read_window w config (fresh st') = (Normal (L, s, e), st2)).
  { destruct (counter_only_read_window w config (fresh st) (fresh st')) as [Hfst _].
    { exact Hcf. }
    rewrite Hw in Hfst. simpl in Hfst.
    destruct (read_window w config (fresh st')) as [c2 st2]. simpl in Hfst. subst c2.
    eauto. }
  destruct Hw2 as [st2 Hw2].
  destruct (exhausted_run _ _ _ _ _ _ _ Hw2 Hlen) as (Hc2 & Htr2 & Hlogs2 & Hcf2).
  fold st'' in Htr2, Hlogs2, Hcf2.
  split; [exact Hc|]. split; [rewrite Htr; reflexivity|].
  split; [rewrite Hlogs; reflexivity|]. split; [exact Hcf|].
  split; [exact Hc2|]. split; [rewrite Htr2; reflexivity|].
  split; [rewrite Hlogs2, Hlogs; reflexivity | exact Hcf2].
Qed.

(** The sample campaign from cursor 3: nothing is sent. *)
Lemma C8_witness :
  let w := sample_world (fun _ => false) in
  let st := sample_state (counter_doc 3) in
  (exists L st1,
     read_window w sample_config (fresh st) = (Normal (L, 3, 3), st1) /\
     Z.of_nat (length (email_list L)) <= 3) /\
  fst (run_task w sample_config st) = Returned /\
  attempted (trace (snd (run_task w sample_config st))) = [] /\
  List.filter is_all_sent (LOGS (snd (run_task w sample_config st))) = [EvAllSent] /\
  counter_file (snd (run_task w sample_config st)) = counter_file st.
Proof.
  intros w st.
  assert (H : exists L st1,
     read_window w sample_config (fresh st) = (Normal (L, 3, 3), st1) /\
     Z.of_nat (length (email_list L)) <= 3).
  { eexists _, _. split; [vm_compute; reflexivity | vm_compute; discriminate]. }
  split; [exact H|].
  destruct H as (L & st1 & Hw & Hlen).
  destruct (C8_exhausted_campaign_is_idempotent _ _ _ _ _ _ _ Hw Hlen)
    as (H1 & H2 & H3 & H4 & _).
  auto.
Defined.

(** ** A failed send *)









(** A run that reaches the window either stops before the loop, with no
    send and the counter file as it was, or runs the loop over the window. *)
Lemma window_run_shape w config st L s e st1 :
  read_window w config (fresh st) = (Normal (L, s, e), st1) ->
  cursor (counter_file st) = Some s /\
  ((attempted (trace (snd (run_task w config st))) = [] /\
    counter_file (snd (run_task w config st)) = counter_file st) \/
   exists pre T cl post,
     trace (snd (run_task w config st)) = pre ++ T ++ post /\
     LOGS (snd (run_task w config st)) = logs_of (pre ++ T ++ post) /\
     counter_file (snd (run_task w config st)) = replay T (counter_file st) /\
     forallb is_log pre = true /\ forallb is_quiet post = true /\
     loop_trace L s (Z.to_nat (e - s)) T cl /\
     loop_end w cl (fst (run_task w config st)) post).
Proof.
  intros Hw.
  rewrite (run_task_window _ _ _ _ _ _ _ Hw).
  apply read_window_spec in Hw
    as (evs & -> & _ & stopper & _ & _ & Hcur & _).
  split; [exact Hcur|].
  destruct (logs_only evs) as [Hlog _].
  destruct (send_window _ _ _ _ _ _) as [c st'] eqn:Hs. simpl fst; simpl snd.
  apply send_window_spec in Hs
    as [(_ & _ & ->) | (_ & [(x & _ & _ & ->) | (_ & T & cl & post & HT & Hend & ->)])];
    rewrite after_app.
  - left. simpl. rewrite attempted_app, replay_app.
    destruct (logs_quiet _ Hlog) as (Hr & _ & Ha & _). rewrite Ha, Hr. auto.
  - left. simpl. rewrite attempted_app, replay_app.
    destruct (logs_quiet _ Hlog) as (Hr & _ & Ha & _). rewrite Ha, Hr. auto.
  - right.
    exists ((TLog <$> evs) ++ [TLog (EvPreparing s (e - 1)); TLog EvConnected]), T, cl, post.
    assert (Hpre : forallb is_log
      ((TLog <$> evs) ++ [TLog (EvPreparing s (e - 1)); TLog EvConnected]) = true)
      by (rewrite forallb_app, Hlog; reflexivity).
    assert (Hpost : forallb is_quiet post = true).
    { unfold loop_end in Hend. destruct cl as [[]| |y]; [|contradiction|].
      - destruct (smtp_quit w); destruct Hend as [_ ->]; reflexivity.
      - destruct Hend as [_ ->]; reflexivity. }
    split; [simpl; rewrite <- app_assoc; reflexivity|].
    split; [simpl; rewrite <- app_assoc; reflexivity|].
    split.
    { destruct (shape_projections _ T post Hpre Hpost) as (Hr & _).
      rewrite <- Hr, <- app_assoc. reflexivity. }
    auto.
Qed.




(** ** The fields a run requires *)

(** C4, as the code has it.  A run sends only when the sender address, the
    password and the recipient file are present and non-empty.  When one of
    the three is missing the run sends nothing and leaves the counter file
    as it was, and, the batch limit being an integer, it logs the error of
    the missing configuration and returns.  The batch limit, the template
    and the attachment are not required: they have defaults or are
    optional. *)
Theorem C4_required_fields_amended w config st :
  (attempted (trace (snd (run_task w config st))) <> [] ->
   config_complete config = true) /\
  (config_complete config = false ->
   attempted (trace (snd (run_task w config st))) = [] /\
   counter_file (snd (run_task w config st)) = counter_file st /\
   forall z, py_int w (dict_get config "stopper" (PInt 100)) = Ok z ->
     fst (run_task w config st) = Returned /\
     LOGS (snd (run_task w config st)) = [EvStarted; EvMissingConfig]).
Proof.
  unfold run_task, send_emails_task, bind.
  destruct (read_window w config (fresh st)) as [cw st1] eqn:Hw.
  apply read_window_spec in Hw as (evs & -> & _ & Hc).
  destruct (logs_only evs) as [Hlog Hlogs].
  destruct (logs_quiet _ Hlog) as (Hr & _ & Ha & _).
  destruct cw as [[[L s] e]| |x].
  - destruct Hc as (stopper & _ & Hcc & _).
    split; [intros _; exact Hcc | intros Hf; congruence].
  - simpl. rewrite Ha, Hr, Hlogs.
    split; [intros Hne; congruence|].
    intros Hf. split; [reflexivity|]. split; [reflexivity|].
    intros z _. destruct Hc as [[_ ->] | [Hcc _]]; [auto | congruence].
  - simpl. rewrite Ha, Hr.
    split; [intros Hne; congruence|].
    intros Hf. split; [reflexivity|]. split; [reflexivity|].
    intros z Hz. destruct Hc as [[_ [Hx | Hcc]] | [Hcc _]]; congruence.
Qed.

(** The sample campaign without password: the run stops at the check. *)
Lemma C4_witness :
  let config := delete "password" sample_config in
  let r := run_task (sample_world (fun _ => false)) config (sample_state None) in
  config_complete config = false /\
  py_int (sample_world (fun _ => false)) (dict_get config "stopper" (PInt 100)) = Ok 2 /\
  attempted (trace (snd r)) = [] /\
  counter_file (snd r) = None /\
  fst r = Returned /\
  LOGS (snd r) = [EvStarted; EvMissingConfig].
Proof.
  intros config r.
  assert (Hf : config_complete config = false) by (vm_compute; reflexivity).
  assert (Hz : py_int (sample_world (fun _ => false))
                 (dict_get config "stopper" (PInt 100)) = Ok 2) by (vm_compute; reflexivity).
  destruct (C4_required_fields_amended (sample_world (fun _ => false)) config
              (sample_state None)) as [_ H].
  destruct (H Hf) as (H1 & H2 & H3). destruct (H3 _ Hz) as [H4 H5].
  repeat split; assumption.
Defined.

(** C4 fails as stated: a configuration with nothing but the sender
    address, the password and the recipient file (no batch limit, no
    template, no attachment) is not complete in the sense of the design
    document, and the run sends to all three recipients and moves the
    cursor. *)
Lemma C4_counterexample :
  let config := delete "stopper" sample_config in
  let r := run_task (sample_world (fun _ => false)) config (sample_state None) in
  dom config = {[ "email"; "password"; "default_file" ]} /\
  spec_config_complete config = false /\
  sent_ok (trace (snd r)) = [0; 1; 2] /\
  cursor (counter_file (snd r)) = Some 3.
Proof. vm_compute. repeat split. Qed.

(** ** An undefined placeholder *)

(** C3 fails on the code: with a template body that names a placeholder
    other than [greeting], the run connects and then raises [KeyError] out
    of the task at the first recipient; the last message of the log is the
    one of the connection, no send is attempted and the connection is not
    closed. *)
Theorem C3_unknown_placeholder_raises :
  let config := <["template_body" := PStr "Dear {name},"]> sample_config in
  let r := run_task (sample_world (fun _ => false)) config (sample_state None) in
  fst r = Raised KeyError /\
  LOGS (snd r) = [EvStarted; EvLoaded 3 (PStr "list.csv"); EvPreparing 0 1; EvConnected] /\
  trace (snd r) = TLog <$> LOGS (snd r).
Proof. vm_compute. repeat split. Qed.

(** The same in general: an iteration whose body cannot be rendered
    raises the error of the rendering, with no effect. *)
Lemma send_one_format_error w L i st receiver from e :
  py_index (email_list L) i = Ok receiver ->
  formataddr (sender_email L) = Ok from ->
  format_body w (template_body L) ("Hi " +:+ extract_name receiver) = Err e ->
  send_one w L i st = (Raised e, st).
Proof.
  intros Hidx Hfrom Hbody. unfold send_one.
  rewrite bind_lift, Hidx, bind_lift, Hfrom, bind_lift, Hbody. reflexivity.
Qed.

(** Whatever the surroundings and the greeting, a body with an unknown
    plain placeholder cannot be rendered. *)
Lemma format_unknown_field w greeting :
  format_body w (PStr "Dear {name},") greeting = Err KeyError.
Proof. reflexivity. Qed.

(** ** Loading the counter *)

(** C6 fails on the code: a counter file that holds a JSON document which
    is not an object makes [load_counter] raise, and one whose ["counter"]
    is not a number makes it return that value; the file absent or not
    decodable gives [0], and bytes that are not text make it raise as
    well. *)
Theorem C6_load_counter_not_total :
  load_counter (Some (Doc (PList []))) = Err AttributeError /\
  load_counter (Some (Doc (PDict {[ "counter" := PStr "7" ]}))) = Ok (PStr "7") /\
  load_counter None = Ok (PInt 0) /\
  load_counter (Some Garbage) = Ok (PInt 0) /\
  load_counter (Some (Unreadable ValueError)) = Err ValueError.
Proof. vm_compute. repeat split. Qed.

(** ** The routes *)

Lemma bind_lift_normal {A B} (r : result A) (k : A -> M B) st b st' :
  bind (lift r) k st = (Normal b, st') -> exists a, r = Ok a /\ k a st = (Normal b, st').
Proof. rewrite bind_lift. destruct r as [a|x]; [eauto | discriminate]. Qed.

(** C5, as the code has it.  Whenever [start_sending] answers, it has
    started one more sending thread and acknowledges it, however many
    threads were started before; and whether it answers does not depend on
    the threads already started. *)
Theorem C5_start_always_spawns_amended st :
  (forall response st',
     start_sending st = (Normal response, st') ->
     response = {[ "success" := PBool true;
                   "message" := PStr "Email sending process initiated." ]} /\
     exists send_config,
       threads st' = send_config :: threads st /\
       counter_file st' = counter_file st /\ LOGS st' = LOGS st) /\
  (forall running,
     fst (start_sending {| config_file := config_file st; counter_file := counter_file st;
                           LOGS := LOGS st; threads := running; trace := trace st |})
     = fst (start_sending st)).
Proof.
  split.
  - intros response st' H. unfold start_sending in H.
    unfold bind in H at 1. unfold read_config_file in H.
    apply bind_lift_normal in H as (config & _ & H).
    apply bind_lift_normal in H as (template_info & _ & H).
    apply bind_lift_normal in H as (template_name & _ & H).
    apply bind_lift_normal in H as (builtin & _ & H).
    unfold bind in H at 1.
    match type of H with
    | (match ?m ?s with _ => _ end) = _ => destruct (m s) as [ct s1] eqn:Ht
    end.
    assert (Hs1 : s1 = st).
    { destruct builtin as [[subject body]|].
      - rewrite bind_lift in Ht. destruct (py_get template_info "body" PNone);
          [|injection Ht as _ <-; reflexivity].
        destruct (negb (truthy a)); [injection Ht as _ <-; reflexivity|].
        rewrite bind_lift in Ht. destruct (py_get template_info "subject" _);
          [|injection Ht as _ <-; reflexivity].
        rewrite bind_lift in Ht. destruct (py_get template_info "body" _);
          injection Ht as _ <-; reflexivity.
      - rewrite bind_lift in Ht. destruct (py_get template_info "subject" _);
          [|injection Ht as _ <-; reflexivity].
        rewrite bind_lift in Ht. destruct (py_get template_info "body" _);
          injection Ht as _ <-; reflexivity. }
    subst s1. destruct ct as [[template_subject template_body]| |x]; try discriminate.
    apply bind_lift_normal in H as (email & _ & H).
    apply bind_lift_normal in H as (password & _ & H).
    apply bind_lift_normal in H as (stopper & _ & H).
    apply bind_lift_normal in H as (default_file & _ & H).
    apply bind_lift_normal in H as (resume_file & _ & H).
    unfold bind, start_thread, ret in H. injection H as <- <-.
    split; [reflexivity|]. simpl. eauto.
  - intros running. unfold start_sending, read_config_file, bind. simpl.
    repeat match goal with
           | |- context [lift ?r ?s] => destruct r; simpl; try reflexivity
           | |- context [match ?o with Some _ => _ | None => _ end] =>
               destruct o as [[? ?]|]; simpl; try reflexivity
           | |- context [if ?b then _ else _] => destruct b; simpl; try reflexivity
           end.
Qed.

(** With one thread started, the route starts a second one. *)
Lemma C5_witness :
  let st := {| config_file := Some (Doc (PDict sample_config)); counter_file := None;
               LOGS := []; threads := [sample_config]; trace := [] |} in
  (exists response st', start_sending st = (Normal response, st')) /\
  exists send_config, threads (snd (start_sending st)) = [send_config; sample_config].
Proof.
  intros st.
  assert (H : exists response st', start_sending st = (Normal response, st'))
    by (eexists _, _; vm_compute; reflexivity).
  split; [exact H|].
  destruct H as (response & st' & H).
  destruct (C5_start_always_spawns_amended st) as [Hs _].
  destruct (Hs _ _ H) as (_ & send_config & Ht & _).
  exists send_config. rewrite H. exact Ht.
Defined.

(** C5 fails as stated: with one sending thread already started,
    [start_sending] succeeds and a second thread is started. *)
Lemma C5_counterexample :
  let st := {| config_file := Some (Doc (PDict sample_config)); counter_file := None;
               LOGS := []; threads := [sample_config]; trace := [] |} in
  length (threads st) = 1%nat /\
  (exists response, fst (start_sending st) = Normal response /\
                    response !! "success" = Some (PBool true)) /\
  length (threads (snd (start_sending st))) = 2%nat.
Proof.
  vm_compute. split; [reflexivity|]. split; [|reflexivity].
  eexists. split; reflexivity.
Qed.

(** C10, as the code has it.  The status document has exactly the fields
    ["counter"], ["stopper"] and ["email"]: the value that [load_counter]
    returns, the batch limit of the configuration as an integer (100 when
    it is not set) and the sender address of the configuration (the empty
    text when it is not set).  It has no field for the number of
    recipients; the route reads neither the recipient file nor changes the
    state. *)
Theorem C10_status_fields_amended w st response st' :
  get_status w st = (Normal response, st') ->
  st' = st /\
  dom response = {[ "counter"; "stopper"; "email" ]} /\
  (exists v, load_counter (counter_file st) = Ok v /\ response !! "counter" = Some v) /\
  (exists config c z,
     load_config (config_file st) = Ok config /\
     py_get config "stopper" (PInt 100) = Ok c /\
     py_int w c = Ok z /\ response !! "stopper" = Some (PInt z)) /\
  (exists config a,
     load_config (config_file st) = Ok config /\
     py_get config "email" (PStr "") = Ok a /\
     response !! "email" = Some a).
Proof.
  unfold get_status. intros H.
  unfold bind in H at 1. unfold read_config_file in H.
  apply bind_lift_normal in H as (config & Hconfig & H).
  unfold bind in H at 1. unfold read_counter_file in H.
  apply bind_lift_normal in H as (counter & Hcounter & H).
  apply bind_lift_normal in H as (c & Hc & H).
  apply bind_lift_normal in H as (z & Hz & H).
  apply bind_lift_normal in H as (a & Ha & H).
  unfold ret in H. injection H as <- <-.
  split; [reflexivity|].
  split; [rewrite !dom_insert_L, dom_singleton_L; set_solver|].
  split; [exists counter; split; [assumption | reflexivity]|].
  split; [exists config, c, z; repeat split; assumption|].
  exists config, a. split; [assumption|]. split; [assumption | reflexivity].
Qed.

(** The status of the sample campaign has no field for the recipients. *)
Lemma C10_witness :
  let w := sample_world (fun _ => false) in
  let st := sample_state (counter_doc 2) in
  (exists response st', get_status w st = (Normal response, st')) /\
  forall response st',
    get_status w st = (Normal response, st') ->
    dom response = {[ "counter"; "stopper"; "email" ]} /\
    response !! "totalRecipients" = None.
Proof.
  intros w st.
  split; [eexists _, _; vm_compute; reflexivity|].
  intros response st' H.
  destruct (C10_status_fields_amended _ _ _ _ H) as (_ & Hdom & _).
  split; [exact Hdom|].
  apply not_elem_of_dom. rewrite Hdom.
  apply (bool_decide_unpack _). vm_compute. exact I.
Defined.

(** C10 fails as stated: for the sample campaign of three recipients, with
    cursor 0 and batch limit 2, the status document holds the cursor, the
    batch limit and the sender address; it is not made of the cursor, the
    number of recipients and the batch limit, under any names. *)
Lemma C10_counterexample :
  let w := sample_world (fun _ => false) in
  let st := sample_state None in
  exists response,
    fst (get_status w st) = Normal response /\
    response = {[ "counter" := PInt 0; "stopper" := PInt 2;
                  "email" := PStr "me@x.com" ]} /\
    (exists L st1,
       read_window w sample_config (fresh st) = (Normal (L, 0, 2), st1) /\
       length (email_list L) = 3%nat) /\
    ~ spec_status response 0 3 2.
Proof.
  intros w st. eexists. split; [vm_compute; reflexivity|].
  assert (Hresp : forall k v,
    ({[ "counter" := PInt 0; "stopper" := PInt 2; "email" := PStr "me@x.com" ]}
       : gmap string pyval) !! k = Some v -> v <> PInt 3).
  { intros k v Hk.
    apply lookup_insert_Some in Hk as [[_ <-] | [_ Hk]]; [discriminate|].
    apply lookup_insert_Some in Hk as [[_ <-] | [_ Hk]]; [discriminate|].
    apply lookup_singleton_Some in Hk as [_ <-]. discriminate. }
  split; [vm_compute; reflexivity|].
  split; [eexists _, _; split; vm_compute; reflexivity|].
  intros (kc & kt & ks & _ & _ & _ & _ & _ & Ht & _).
  exact (Hresp _ _ Ht eq_refl).
Qed.

(** * Further properties of the code *)

(** ** The cursor across runs *)

(** X1. Across any sequence of runs of the task, whatever their
    surroundings and their arguments, the cursor stays an integer and never
    decreases. *)
Theorem X1_cursor_never_decreases runs st k :
  cursor (counter_file st) = Some k ->
  exists k', cursor (counter_file (run_all runs st)) = Some k' /\ k <= k'.
Proof.
  revert st k. induction runs as [|[w config] runs IH]; intros st k Hk; simpl.
  - exists k. split; [exact Hk | lia].
  - destruct (send_emails_task w config st) as [c st'] eqn:Hrun. simpl.
    destruct (task_cursor_monotone _ _ _ _ _ k _ Hrun Hk ltac:(lia))
      as [(k1 & Hk1 & Hle) _].
    destruct (IH _ _ Hk1) as (k' & Hk' & Hle').
    exists k'. split; [exact Hk' | lia].
Qed.

(** Three runs of the sample campaign, the second with a relay that
    refuses everything: the cursor goes from 0 to 2, stays, and ends at 3. *)
Lemma X1_witness :
  let runs := [(sample_world (fun _ => false), sample_config);
               (sample_world (fun _ => true), sample_config);
               (sample_world (fun _ => false), sample_config)] in
  cursor (counter_file (sample_state None)) = Some 0 /\
  cursor (counter_file (run_all runs (sample_state None))) = Some 3 /\
  exists k', cursor (counter_file (run_all runs (sample_state None))) = Some k' /\ 0 <= k'.
Proof.
  intros runs.
  assert (H : cursor (counter_file (sample_state None)) = Some 0) by reflexivity.
  split; [exact H|]. split; [vm_compute; reflexivity|].
  exact (X1_cursor_never_decreases runs _ _ H).
Defined.

(** ** The order and the number of the sends *)

(** X2. A run sends at consecutive indices, in ascending order and at each
    index once, beginning at the cursor; and it attempts no more sends than
    the batch limit (none when the limit is zero or negative). *)
Theorem X2_consecutive_sends_within_limit w config st :
  exists (s : Z) (k : nat),
    attempted (trace (snd (run_task w config st))) = seqZ s (Z.of_nat k) /\
    NoDup (attempted (trace (snd (run_task w config st)))) /\
    (k <> O -> cursor (counter_file st) = Some s) /\
    (forall z, py_int w (dict_get config "stopper" (PInt 100)) = Ok z ->
       Z.of_nat k <= Z.max 0 z).
Proof.
  destruct (read_window w config (fresh st)) as [cw st1] eqn:Hw.
  destruct cw as [[[L s] e]| |x].
  - destruct (window_run_shape _ _ _ _ _ _ _ Hw)
      as [Hcur [[Hnone _] | (pre & T & cl & post & Htr & _ & _ & Hpre & Hpost & HT & _)]].
    + exists 0, O. rewrite Hnone. repeat split; [constructor | congruence | lia].
    + destruct (shape_projections pre T post Hpre Hpost) as (_ & _ & Ha & _).
      destruct (loop_attempted _ _ _ _ _ HT) as (k & Hk & Hseq & _).
      exists s, k. rewrite Htr, Ha, Hseq.
      split; [reflexivity|]. split; [apply NoDup_seqZ|]. split; [auto|].
      intros z Hz.
      apply read_window_spec in Hw as (evs & _ & _ & stopper & Hstop & _ & _ & -> & _).
      rewrite Hz in Hstop. injection Hstop as <-. unfold end_counter in Hk. lia.
  - exists 0, O. unfold run_task, send_emails_task, bind. rewrite Hw. simpl.
    apply read_window_spec in Hw as (evs & -> & _).
    destruct (logs_only evs) as [Hlog _]. destruct (logs_quiet _ Hlog) as (_ & _ & Ha & _).
    simpl. rewrite Ha. repeat split; [constructor | congruence | lia].
  - exists 0, O. unfold run_task, send_emails_task, bind. rewrite Hw. simpl.
    apply read_window_spec in Hw as (evs & -> & _).
    destruct (logs_only evs) as [Hlog _]. destruct (logs_quiet _ Hlog) as (_ & _ & Ha & _).
    simpl. rewrite Ha. repeat split; [constructor | congruence | lia].
Qed.

(** ** Runs that stop before the loop *)

(** X3. When the relay refuses the connection or the login in a run that
    has recipients left, the run logs the window and the failure, returns,
    sends nothing and leaves the counter file as it was. *)
Theorem X3_connection_failure_keeps_cursor w config st L s e st1 x :
  read_window w config (fresh st) = (Normal (L, s, e), st1) ->
  s < Z.of_nat (length (email_list L)) ->
  smtp_connect w (dict_get config "email" PNone) (dict_get config "password" PNone) = Some x ->
  fst (run_task w config st) = Returned /\
  LOGS (snd (run_task w config st)) =
    [EvStarted; EvLoaded (length (email_list L)) (dict_get config "default_file" PNone);
     EvPreparing s (e - 1); EvConnectFailed x] /\
  attempted (trace (snd (run_task w config st))) = [] /\
  saved (trace (snd (run_task w config st))) = [] /\
  counter_file (snd (run_task w config st)) = counter_file st.
Proof.
  intros Hw Hlt Hconn.
  rewrite (run_task_window _ _ _ _ _ _ _ Hw).
  apply read_window_spec in Hw
    as (evs & -> & _ & stopper & _ & _ & _ & _ & Hsender & _ & ->).
  rewrite <- Hsender in Hconn.
  destruct (send_window _ _ _ _ _ _) as [c st'] eqn:Hs. simpl fst; simpl snd.
  apply send_window_spec in Hs
    as [(Hle & _) | (_ & [(y & Hy & -> & ->) | (Hnone & _)])]; [lia | | congruence].
  rewrite Hconn in Hy. injection Hy as <-.
  repeat split.
Qed.

Lemma X3_witness :
  let w := {| int_of_str := fun _ => None;
              format_extended := fun _ _ => Err ValueError;
              read_csv := fun _ => Ok sample_frame;
              smtp_connect := fun _ _ => Some (OtherError "SMTPAuthenticationError");
              path_exists := fun _ _ => false;
              read_attachment := fun _ _ => None;
              sendmail := fun _ _ => None;
              smtp_quit := None |} in
  let st := sample_state (counter_doc 1) in
  (exists L st1,
     read_window w sample_config (fresh st) = (Normal (L, 1, 3), st1) /\
     1 < Z.of_nat (length (email_list L))) /\
  fst (run_task w sample_config st) = Returned /\
  attempted (trace (snd (run_task w sample_config st))) = [] /\
  counter_file (snd (run_task w sample_config st)) = counter_file st.
Proof.
  intros w st.
  assert (H : exists L st1,
     read_window w sample_config (fresh st) = (Normal (L, 1, 3), st1) /\
     1 < Z.of_nat (length (email_list L))).
  { eexists _, _. split; vm_compute; reflexivity. }
  split; [exact H|].
  destruct H as (L & st1 & Hw & Hlt).
  destruct (X3_connection_failure_keeps_cursor w sample_config st L 1 3 st1
              (OtherError "SMTPAuthenticationError") Hw Hlt eq_refl)
    as (H1 & _ & H3 & _ & H5).
  auto.
Defined.







(** ** Iterations that reach the send *)





(** ** A batch with a working relay *)




(** ** The routes that edit the configuration *)

(** What [start_sending] hands to the thread: the fields of [config.json]
    and the resolved template. *)
Lemma start_sending_spec st r st' :
  start_sending st = (Normal r, st') ->
  exists d info builtin,
    load_config (config_file st) = Ok (PDict d) /\
    dict_get d "current_template" (PDict ∅) = PDict info /\
    template_lookup (dict_get info "name" (PStr "default")) = Ok builtin /\
    st' = with_thread
            (send_config_of d (dict_get info "name" (PStr "default"))
               (fst (resolve_template info builtin))
               (snd (resolve_template info builtin))) st.
Proof.
  unfold start_sending. intros H.
  unfold bind in H at 1. unfold read_config_file in H.
  apply bind_lift_normal in H as (config & Hconfig & H).
  apply bind_lift_normal in H as (template_info & Hinfo & H).
  destruct config as [| | | | |d]; try discriminate.
  simpl in Hinfo. injection Hinfo as <-.
  apply bind_lift_normal in H as (template_name & Hname & H).
  destruct (dict_get d "current_template" (PDict ∅)) as [| | | | |info] eqn:Hd;
    try discriminate.
  simpl in Hname. injection Hname as <-.
  apply bind_lift_normal in H as (builtin & Hb & H).
  exists d, info, builtin. split; [exact Hconfig|]. split; [exact Hd|].
  split; [exact Hb|].
  unfold resolve_template.
  destruct builtin as [[subject body]|];
    unfold bind, ret, start_thread in H; simpl in H.
  - destruct (negb (truthy (dict_get info "body" PNone)));
      injection H as <- <-; reflexivity.
  - injection H as <- <-. reflexivity.
Qed.

Lemma send_config_of_fields d n s b :
  dict_get (send_config_of d n s b) "email" PNone = dict_get d "email" PNone /\
  dict_get (send_config_of d n s b) "password" PNone = dict_get d "password" PNone /\
  dict_get (send_config_of d n s b) "stopper" (PInt 100) = dict_get d "stopper" (PInt 100) /\
  dict_get (send_config_of d n s b) "default_file" PNone = dict_get d "default_file" PNone /\
  dict_get (send_config_of d n s b) "resume_file" PNone = dict_get d "resume_file" PNone /\
  dict_get (send_config_of d n s b) "template_subject" (PStr "Hello") = s /\
  dict_get (send_config_of d n s b) "template_body" (PStr "Hi {greeting}") = b.
Proof.
  unfold send_config_of.
  repeat split; unfold dict_get at 1;
    repeat (rewrite lookup_insert_ne by discriminate);
    rewrite ?lookup_insert_eq, ?lookup_singleton_eq; reflexivity.
Qed.

(** A run attempts at most as many sends as the batch limit. *)
Lemma attempts_within_limit w config st z :
  py_int w (dict_get config "stopper" (PInt 100)) = Ok z ->
  (length (attempted (trace (snd (run_task w config st)))) <= Z.to_nat z)%nat.
Proof.
  intros Hz.
  destruct (read_window w config (fresh st)) as [cw st1] eqn:Hw.
  destruct cw as [[[L s] e]| |x].
  - destruct (window_run_shape _ _ _ _ _ _ _ Hw)
      as [_ [[Hnone _] | (pre & T & cl & post & Htr & _ & _ & Hpre & Hpost & HT & _)]].
    + rewrite Hnone. simpl. lia.
    + destruct (shape_projections pre T post Hpre Hpost) as (_ & _ & Ha & _).
      destruct (loop_attempted _ _ _ _ _ HT) as (k & Hk & Hseq & _).
      rewrite Htr, Ha, Hseq, length_seqZ.
      apply read_window_spec in Hw as (evs & _ & _ & stopper & Hstop & _ & _ & -> & _).
      rewrite Hz in Hstop. injection Hstop as <-. unfold end_counter in Hk. lia.
  - unfold run_task, send_emails_task, bind. rewrite Hw. simpl.
    apply read_window_spec in Hw as (evs & -> & _).
    destruct (logs_only evs) as [Hlog _]. destruct (logs_quiet _ Hlog) as (_ & _ & Ha & _).
    simpl. rewrite Ha. simpl. lia.
  - unfold run_task, send_emails_task, bind. rewrite Hw. simpl.
    apply read_window_spec in Hw as (evs & -> & _).
    destruct (logs_only evs) as [Hlog _]. destruct (logs_quiet _ Hlog) as (_ & _ & Ha & _).
    simpl. rewrite Ha. simpl. lia.
Qed.

(** A run without one of the required fields sends nothing and leaves the
    counter file as it was. *)
Lemma incomplete_no_sends w config st :
  config_complete config = false ->
  attempted (trace (snd (run_task w config st))) = [] /\
  counter_file (snd (run_task w config st)) = counter_file st.
Proof.
  intros Hf. unfold run_task, send_emails_task, bind.
  destruct (read_window w config (fresh st)) as [cw st1] eqn:Hw.
  apply read_window_spec in Hw as (evs & -> & _ & Hc).
  destruct (logs_only evs) as [Hlog Hlogs].
  destruct (logs_quiet _ Hlog) as (Hr & _ & Ha & _).
  destruct cw as [[[L s] e]| |x].
  - destruct Hc as (stopper & _ & Hcc & _). congruence.
  - simpl. rewrite Ha, Hr. auto.
  - simpl. rewrite Ha, Hr. auto.
Qed.

(** The answers of [set_stopper]. *)
Lemma set_stopper_spec w request_json st body code st' :
  set_stopper w request_json st = (Normal (body, code), st') ->
  (code = 200 /\
   exists value n d,
     py_get request_json "value" PNone = Ok value /\
     py_int w value = Ok n /\ 0 < n /\
     load_config (config_file st) = Ok (PDict d) /\
     st' = with_config (PDict (<["stopper" := PInt n]> d)) st) \/
  (code = 400 /\ st' = st).
Proof.
  unfold set_stopper. intros H.
  apply bind_lift_normal in H as (value & Hvalue & H).
  unfold try_except_value_type in H. rewrite bind_lift in H.
  destruct (py_int w value) as [n|x] eqn:Hn.
  - unfold bind in H at 1.
    destruct (Z.leb_spec n 0) as [Hle|Hlt].
    + unfold raise, ret in H. injection H as <- <- <-. right. auto.
    + unfold ret in H at 1. unfold bind in H at 1. unfold read_config_file in H.
      rewrite bind_lift in H.
      destruct (load_config (config_file st)) as [config|x] eqn:Hd.
      2: { destruct x; try discriminate;
             unfold ret in H; injection H as <- <- <-; right; auto. }
      rewrite bind_lift in H.
      destruct config as [| | | | |d]; simpl in H;
        try solve [unfold ret in H; injection H as <- <- <-; right; auto].
      unfold bind, save_config, ret in H. injection H as <- <- <-.
      left. split; [reflexivity|]. exists value, n, d. auto 6.
  - destruct x; try discriminate;
      unfold ret in H; injection H as <- <- <-; right; auto.
Qed.


(** X8. [set_stopper] answers 200 only for a value that [int] turns into a
    positive integer, with a configuration that is a dict: then
    ["stopper"] is set to that integer and nothing else changes.  Every
    other answer is 400 and leaves the state as it was. *)
Theorem X8_set_stopper_outcome w request_json st body code st' :
  set_stopper w request_json st = (Normal (body, code), st') ->
  (code = 200 /\
   exists value n d,
     py_get request_json "value" PNone = Ok value /\
     py_int w value = Ok n /\ 0 < n /\
     load_config (config_file st) = Ok (PDict d) /\
     st' = with_config (PDict (<["stopper" := PInt n]> d)) st) \/
  (code = 400 /\ st' = st).
Proof. apply set_stopper_spec. Qed.

Lemma X8_witness :
  let w := sample_world (fun _ => false) in
  let st := sample_state None in
  let st' := snd (set_stopper w (PDict {[ "value" := PInt 5 ]}) st) in
  fst (set_stopper w (PDict {[ "value" := PInt 5 ]}) st)
    = Normal ({[ "success" := PBool true ]}, 200) /\
  load_config (config_file st') = Ok (PDict (<["stopper" := PInt 5]> sample_config)) /\
  fst (set_stopper w (PDict {[ "value" := PInt 0 ]}) st)
    = Normal ({[ "error" := PStr "Invalid stopper value. Must be a positive number." ]}, 400).
Proof.
  intros w st st'.
  assert (H : set_stopper w (PDict {[ "value" := PInt 5 ]}) st
              = (Normal ({[ "success" := PBool true ]}, 200), st')) by reflexivity.
  split; [rewrite H; reflexivity|].
  destruct (X8_set_stopper_outcome _ _ _ _ _ _ H)
    as [(_ & value & n & d & Hv & Hn & _ & Hd & Hst) | [Hcode _]]; [|discriminate].
  split; [|vm_compute; reflexivity].
  rewrite Hst. simpl.
  assert (value = PInt 5) as -> by (vm_compute in Hv; congruence).
  injection Hn as <-. injection Hd as <-. reflexivity.
Defined.

(** X9. After [set_stopper] has answered 200 for the integer [n], the
    status route reports [n] as the batch limit, and every run that
    [start_sending] starts from then on attempts at most [n] sends,
    whatever its surroundings. *)
Theorem X9_stopper_bounds_later_runs w request_json st body st1 :
  set_stopper w request_json st = (Normal (body, 200), st1) ->
  exists n,
    0 < n /\
    (forall w' r st2, get_status w' st1 = (Normal r, st2) ->
       r !! "stopper" = Some (PInt n)) /\
    (forall r st2, start_sending st1 = (Normal r, st2) ->
       exists send_config,
         threads st2 = send_config :: threads st /\
         send_config !! "stopper" = Some (PInt n) /\
         forall w' st3,
           (length (attempted (trace (snd (run_task w' send_config st3)))) <= Z.to_nat n)%nat).
Proof.
  intros H.
  apply set_stopper_spec in H
    as [(_ & value & n & d & _ & _ & Hn & _ & ->) | [Hcode _]]; [|discriminate].
  exists n. split; [exact Hn|]. split.
  - intros w' r st2 Hs. unfold get_status in Hs.
    unfold bind in Hs at 1. unfold read_config_file in Hs.
    apply bind_lift_normal in Hs as (config & Hconfig & Hs).
    simpl in Hconfig. injection Hconfig as <-.
    unfold bind in Hs at 1. unfold read_counter_file in Hs.
    apply bind_lift_normal in Hs as (counter & _ & Hs).
    apply bind_lift_normal in Hs as (c & Hc & Hs).
    simpl in Hc. unfold dict_get in Hc. rewrite lookup_insert_eq in Hc.
    injection Hc as <-.
    apply bind_lift_normal in Hs as (z & Hz & Hs). injection Hz as <-.
    apply bind_lift_normal in Hs as (a & _ & Hs).
    unfold ret in Hs. injection Hs as <- _.
    rewrite lookup_insert_ne by discriminate. apply lookup_insert_eq.
  - intros r st2 Hs.
    apply start_sending_spec in Hs as (d' & info & builtin & Hd' & _ & _ & ->).
    simpl in Hd'. injection Hd' as <-.
    eexists. split; [reflexivity|].
    assert (Hst : dict_get (<["stopper" := PInt n]> d) "stopper" (PInt 100) = PInt n).
    { unfold dict_get. rewrite lookup_insert_eq. reflexivity. }
    split.
    { unfold send_config_of. rewrite Hst.
      repeat (rewrite lookup_insert_ne by discriminate). apply lookup_insert_eq. }
    intros w' st3. apply attempts_within_limit.
    destruct (send_config_of_fields (<["stopper" := PInt n]> d)
                (dict_get info "name" (PStr "default"))
                (fst (resolve_template info builtin))
                (snd (resolve_template info builtin))) as (_ & _ & -> & _).
    rewrite Hst. reflexivity.
Qed.

Lemma X9_witness :
  let w := sample_world (fun _ => false) in
  let st := sample_state None in
  let st1 := snd (set_stopper w (PDict {[ "value" := PInt 1 ]}) st) in
  set_stopper w (PDict {[ "value" := PInt 1 ]}) st
    = (Normal ({[ "success" := PBool true ]}, 200), st1) /\
  exists n,
    0 < n /\
    forall r st2, get_status w st1 = (Normal r, st2) -> r !! "stopper" = Some (PInt n).
Proof.
  intros w st st1.
  assert (H : set_stopper w (PDict {[ "value" := PInt 1 ]}) st
              = (Normal ({[ "success" := PBool true ]}, 200), st1)) by reflexivity.
  split; [exact H|].
  destruct (X9_stopper_bounds_later_runs _ _ _ _ _ H) as (n & Hn & Hstatus & _).
  exists n. split; [exact Hn|]. intros r st2. apply Hstatus.
Defined.

(** X10. [save_credentials] answers 200 only when the address is not
    empty, the password has exactly 16 characters and the configuration is
    a dict: then the two fields are set and nothing else changes.  Every
    other answer is 400 and leaves the state as it was. *)
Theorem X10_save_credentials_outcome data st body code st' :
  save_credentials data st = (Normal (body, code), st') ->
  (code = 200 /\
   exists email password d,
     py_get data "email" PNone = Ok email /\
     py_get data "password" PNone = Ok password /\
     truthy email = true /\ py_len password = Ok 16 /\
     load_config (config_file st) = Ok (PDict d) /\
     st' = with_config (PDict (<["password" := password]> (<["email" := email]> d))) st) \/
  (code = 400 /\ st' = st).
Proof.
  unfold save_credentials. intros H.
  apply bind_lift_normal in H as (email & Hemail & H).
  apply bind_lift_normal in H as (password & Hpassword & H).
  destruct (truthy email) eqn:Hte; simpl in H;
    [|unfold ret in H; injection H as <- <- <-; right; auto].
  destruct (truthy password) eqn:Htp; simpl in H;
    [|unfold ret in H; injection H as <- <- <-; right; auto].
  unfold bind in H at 1. rewrite bind_lift in H.
  destruct (py_len password) as [n|x] eqn:Hlen; [|discriminate].
  unfold ret in H at 1.
  destruct (Z.eqb_spec n 16) as [->|Hne]; simpl in H;
    [|unfold ret in H; injection H as <- <- <-; right; auto].
  unfold bind in H at 1. unfold read_config_file in H.
  rewrite bind_lift in H.
  destruct (load_config (config_file st)) as [config|x] eqn:Hd; [|discriminate].
  rewrite bind_lift in H.
  destruct config as [| | | | |d]; try discriminate.
  simpl in H. unfold bind, save_config, ret in H. simpl in H.
  injection H as <- <- <-.
  left. split; [reflexivity|]. exists email, password, d. auto 8.
Qed.

Lemma X10_witness :
  let data := PDict {[ "email" := PStr "me@x.com"; "password" := PStr "abcdabcdabcdabcd" ]} in
  let st := {| config_file := None; counter_file := None; LOGS := []; threads := [];
               trace := [] |} in
  (exists body st', save_credentials data st = (Normal (body, 200), st')) /\
  load_config (config_file (snd (save_credentials data st)))
    = Ok (PDict {[ "password" := PStr "abcdabcdabcdabcd"; "email" := PStr "me@x.com" ]}) /\
  fst (save_credentials (PDict {[ "email" := PStr "me@x.com"; "password" := PStr "short" ]}) st)
    = Normal ({[ "error" := PStr "App Password must be 16 characters long." ]}, 400).
Proof.
  intros data st.
  assert (H : exists body st', save_credentials data st = (Normal (body, 200), st'))
    by (eexists _, _; vm_compute; reflexivity).
  split; [exact H|].
  destruct H as (body & st' & H).
  destruct (X10_save_credentials_outcome _ _ _ _ _ H)
    as [(_ & email & password & d & He & Hp & _ & _ & Hd & Hst) | [Hcode _]];
    [|discriminate].
  rewrite H. simpl. rewrite Hst. simpl.
  split; [|vm_compute; reflexivity].
  vm_compute in He. vm_compute in Hp. simpl in Hd.
  injection He as <-. injection Hp as <-. injection Hd as <-.
  vm_compute. reflexivity.
Defined.

(** The answers of [clear_credentials]: the configuration is rewritten, and
    when it is a dict it has neither address nor password. *)
Lemma clear_credentials_spec st r st' :
  clear_credentials st = (Normal r, st') ->
  exists c,
    st' = with_config c st /\
    forall d, c = PDict d -> d !! "email" = None /\ d !! "password" = None.
Proof.
  unfold clear_credentials. intros H.
  unfold bind in H at 1. unfold read_config_file in H.
  apply bind_lift_normal in H as (config & _ & H).
  apply bind_lift_normal in H as (has_email & Hin & H).
  destruct config as [| | |s|l|d]; try discriminate.
  - (* a text *)
    unfold bind in H at 1.
    destruct has_email; [discriminate|]. unfold ret in H at 1.
    apply bind_lift_normal in H as (has_password & Hin2 & H).
    unfold bind in H at 1.
    destruct has_password; [discriminate|]. unfold ret in H at 1.
    unfold bind, save_config, ret in H. injection H as <- <-.
    exists (PStr s). split; [reflexivity | discriminate].
  - (* a list *)
    unfold bind in H at 1.
    destruct has_email; [discriminate|]. unfold ret in H at 1.
    apply bind_lift_normal in H as (has_password & Hin2 & H).
    unfold bind in H at 1.
    destruct has_password; [discriminate|]. unfold ret in H at 1.
    unfold bind, save_config, ret in H. injection H as <- <-.
    exists (PList l). split; [reflexivity | discriminate].
  - (* a dict *)
    simpl in Hin. injection Hin as <-.
    unfold bind in H at 1.
    assert (Hstep1 : exists d1,
      d1 !! "email" = None /\ (d1 !! "password" = None \/ d1 !! "password" = d !! "password") /\
      (if bool_decide (is_Some (d !! "email"))
       then lift (py_delitem (PDict d) "email") else ret (PDict d)) st
      = (Normal (PDict d1), st)).
    { destruct (d !! "email") as [v|] eqn:He.
      - exists (delete "email" d). rewrite lookup_delete_eq.
        split; [reflexivity|]. split.
        + right. apply lookup_delete_ne. discriminate.
        + rewrite bool_decide_eq_true_2 by eauto. simpl. rewrite He. reflexivity.
      - exists d. split; [exact He|]. split; [auto|].
        rewrite bool_decide_eq_false_2 by (intros [? ?]; discriminate). reflexivity. }
    destruct Hstep1 as (d1 & He1 & _ & Hs1). rewrite Hs1 in H. clear Hs1.
    apply bind_lift_normal in H as (has_password & Hin2 & H).
    simpl in Hin2. injection Hin2 as <-.
    unfold bind in H at 1.
    assert (Hstep2 : exists d2,
      d2 !! "email" = None /\ d2 !! "password" = None /\
      (if bool_decide (is_Some (d1 !! "password"))
       then lift (py_delitem (PDict d1) "password") else ret (PDict d1)) st
      = (Normal (PDict d2), st)).
    { destruct (d1 !! "password") as [v|] eqn:Hp.
      - exists (delete "password" d1). rewrite lookup_delete_eq.
        split; [rewrite lookup_delete_ne by discriminate; exact He1|].
        split; [reflexivity|].
        rewrite bool_decide_eq_true_2 by eauto. simpl. rewrite Hp. reflexivity.
      - exists d1. split; [exact He1|]. split; [exact Hp|].
        rewrite bool_decide_eq_false_2 by (intros [? ?]; discriminate). reflexivity. }
    destruct Hstep2 as (d2 & He2 & Hp2 & Hs2). rewrite Hs2 in H. clear Hs2.
    unfold bind, save_config, ret in H. injection H as <- <-.
    exists (PDict d2). split; [reflexivity|].
    intros d' [= <-]. auto.
Qed.

(** X11. After [clear_credentials] has answered, a run that
    [start_sending] starts gets neither address nor password, so whatever
    its surroundings it sends nothing and leaves the counter file as it
    was. *)
Theorem X11_no_sending_after_clear st r1 st1 r2 st2 :
  clear_credentials st = (Normal r1, st1) ->
  start_sending st1 = (Normal r2, st2) ->
  exists send_config,
    threads st2 = send_config :: threads st /\
    send_config !! "email" = Some PNone /\
    send_config !! "password" = Some PNone /\
    forall w st3,
      attempted (trace (snd (run_task w send_config st3))) = [] /\
      counter_file (snd (run_task w send_config st3)) = counter_file st3.
Proof.
  intros Hclear Hstart.
  apply clear_credentials_spec in Hclear as (c & -> & Hc).
  apply start_sending_spec in Hstart as (d & info & builtin & Hd & _ & _ & ->).
  simpl in Hd. injection Hd as Hd. destruct (Hc d Hd) as [He Hp].
  eexists. split; [reflexivity|].
  assert (Hemail : dict_get d "email" PNone = PNone) by (unfold dict_get; rewrite He; reflexivity).
  assert (Hpass : dict_get d "password" PNone = PNone) by (unfold dict_get; rewrite Hp; reflexivity).
  split.
  { unfold send_config_of. rewrite Hemail. apply lookup_insert_eq. }
  split.
  { unfold send_config_of. rewrite Hpass.
    rewrite lookup_insert_ne by discriminate. apply lookup_insert_eq. }
  intros w st3. apply incomplete_no_sends.
  unfold config_complete. simpl.
  destruct (send_config_of_fields d (dict_get info "name" (PStr "default"))
              (fst (resolve_template info builtin))
              (snd (resolve_template info builtin))) as (-> & _).
  rewrite Hemail. reflexivity.
Qed.

Lemma X11_witness :
  let st := sample_state None in
  (exists r1 st1 r2 st2,
     clear_credentials st = (Normal r1, st1) /\ start_sending st1 = (Normal r2, st2)) /\
  forall r1 st1 r2 st2,
    clear_credentials st = (Normal r1, st1) ->
    start_sending st1 = (Normal r2, st2) ->
    exists send_config,
      threads st2 = [send_config] /\
      attempted (trace (snd (run_task (sample_world (fun _ => false)) send_config st))) = [].
Proof.
  intros st.
  split; [eexists _, _, _, _; split; vm_compute; reflexivity|].
  intros r1 st1 r2 st2 H1 H2.
  destruct (X11_no_sending_after_clear _ _ _ _ _ H1 H2) as (send_config & Ht & _ & _ & Hrun).
  exists send_config. split; [exact Ht | apply Hrun].
Defined.

(** X12. After [save_template] has answered, the run that [start_sending]
    starts gets the saved subject and body when the saved body is not
    empty; with an empty body it gets the built-in template of the saved
    name when there is one, and the saved subject and body as they are
    otherwise. *)
Theorem X12_saved_template_is_sent data st r1 st1 r2 st2 :
  save_template data st = (Normal r1, st1) ->
  start_sending st1 = (Normal r2, st2) ->
  exists name subject body builtin send_config,
    py_get data "name" PNone = Ok name /\
    py_get data "subject" PNone = Ok subject /\
    py_get data "body" PNone = Ok body /\
    template_lookup name = Ok builtin /\
    threads st2 = send_config :: threads st /\
    send_config !! "template_subject" =
      Some (match builtin with
            | Some (s, _) => if truthy body then subject else PStr s
            | None => subject
            end) /\
    send_config !! "template_body" =
      Some (match builtin with
            | Some (_, b) => if truthy body then body else PStr b
            | None => body
            end).
Proof.
  unfold save_template. intros Hsave Hstart.
  unfold bind in Hsave at 1. unfold read_config_file in Hsave.
  apply bind_lift_normal in Hsave as (config0 & _ & Hsave).
  apply bind_lift_normal in Hsave as (name & Hname & Hsave).
  apply bind_lift_normal in Hsave as (subject & Hsubject & Hsave).
  apply bind_lift_normal in Hsave as (body & Hbody & Hsave).
  apply bind_lift_normal in Hsave as (config & Hconfig & Hsave).
  destruct config0 as [| | | | |d]; try discriminate.
  simpl in Hconfig. injection Hconfig as <-.
  unfold bind, save_config, ret in Hsave. injection Hsave as _ <-.
  apply start_sending_spec in Hstart as (d' & info & builtin & Hd' & Hinfo & Hb & ->).
  simpl in Hd'. injection Hd' as <-.
  unfold dict_get in Hinfo. rewrite lookup_insert_eq in Hinfo. injection Hinfo as <-.
  assert (Hn : dict_get ({[ "name" := name; "subject" := subject; "body" := body ]}
                           : gmap string pyval) "name" (PStr "default") = name).
  { unfold dict_get. rewrite lookup_insert_eq. reflexivity. }
  assert (Hs : forall dflt, dict_get ({[ "name" := name; "subject" := subject; "body" := body ]}
                           : gmap string pyval) "subject" dflt = subject).
  { intros dflt. unfold dict_get. rewrite lookup_insert_ne by discriminate.
    rewrite lookup_insert_eq. reflexivity. }
  assert (Hbd : forall dflt, dict_get ({[ "name" := name; "subject" := subject; "body" := body ]}
                           : gmap string pyval) "body" dflt = body).
  { intros dflt. unfold dict_get. rewrite !lookup_insert_ne by discriminate.
    rewrite lookup_singleton_eq. reflexivity. }
  rewrite Hn in Hb.
  exists name, subject, body, builtin. eexists.
  split; [exact Hname|]. split; [exact Hsubject|]. split; [exact Hbody|].
  split; [exact Hb|]. split; [reflexivity|].
  unfold send_config_of, resolve_template. rewrite Hs, !Hbd.
  split.
  - do 6 (rewrite lookup_insert_ne by discriminate). rewrite lookup_insert_eq.
    destruct builtin as [[s b]|]; [destruct (truthy body)|]; reflexivity.
  - do 7 (rewrite lookup_insert_ne by discriminate). rewrite lookup_singleton_eq.
    destruct builtin as [[s b]|]; [destruct (truthy body)|]; reflexivity.
Qed.

Lemma X12_witness :
  let data := PDict {[ "name" := PStr "mine"; "subject" := PStr "Hello there";
                       "body" := PStr "{greeting}, see my resume." ]} in
  let st := sample_state None in
  (exists r1 st1 r2 st2,
     save_template data st = (Normal r1, st1) /\ start_sending st1 = (Normal r2, st2)) /\
  forall r1 st1 r2 st2,
    save_template data st = (Normal r1, st1) ->
    start_sending st1 = (Normal r2, st2) ->
    exists send_config,
      threads st2 = [send_config] /\
      send_config !! "template_body" = Some (PStr "{greeting}, see my resume.").
Proof.
  intros data st.
  split; [eexists _, _, _, _; split; vm_compute; reflexivity|].
  intros r1 st1 r2 st2 H1 H2.
  destruct (X12_saved_template_is_sent _ _ _ _ _ _ H1 H2)
    as (name & subject & body & builtin & send_config & Hn & _ & Hb & Hl & Ht & _ & Hbody).
  exists send_config. split; [exact Ht|].
  rewrite Hbody.
  vm_compute in Hn. injection Hn as <-.
  vm_compute in Hb. injection Hb as <-.
  vm_compute in Hl. injection Hl as <-. reflexivity.
Defined.
